(** * Refugee registration form: validation and persistence workflow

    A shallow embedding of [src/app.py] (a Flask application with the
    routes [/], [/register], [/submit] and [/view]) and the proofs of the
    properties its specification states about it.

    Conventions of the model.
    - A Python [str] is a [string]; a character is a code point in
      U+0000..U+00FF, so the character classes below are the ones of
      Python's [str] methods on that range (superscript digits included).
      Text with characters beyond that range is outside the model; the
      properties are worded through [str.isdigit], [str.isdecimal],
      [str.strip] and [int] as the code calls them, not through sets of
      characters.
    - The request is a pair of finite maps, [request.form] and
      [request.files]; a missing key is looked up with a default, as
      [MultiDict.get] does.
    - Effects (flashed messages, the upload folder, [registrations.json])
      are threaded through a state monad with exceptions, [M].
    - [int] has CPython's default limit on the number of digits of a
      numeral, [sys.int_info.default_max_str_digits].
    - Failures of the operating system (permissions, a full disk) and what
      the templates do when they are rendered are no part of the model.
    - [werkzeug.utils.secure_filename] belongs to a library and is a
      parameter of the development. *)

From Stdlib Require Import ZArith NArith Ascii String List Bool Lia.
From stdpp Require Import base option list strings gmap.

Local Open Scope string_scope.
Local Open Scope list_scope.

(** ** Python string primitives *)

Module Py.

Definition code (c : ascii) : N := N_of_ascii c.

Definition between (lo hi n : N) : bool := (lo <=? n)%N && (n <=? hi)%N.

(** [c.isspace()]: TAB..CR, FS..US, SPACE, NEL and NBSP. *)
Definition char_isspace (c : ascii) : bool :=
  let n := code c in
  between 9 13 n || between 28 32 n || (n =? 133)%N || (n =? 160)%N.

(** [c.isdecimal()]: the characters [int] accepts as digits. *)
Definition char_isdecimal (c : ascii) : bool := between 48 57 (code c).

(** [c.isdigit()]: the decimal digits and the superscripts U+00B2, U+00B3
    and U+00B9. *)
Definition char_isdigit (c : ascii) : bool :=
  let n := code c in
  char_isdecimal c || (n =? 178)%N || (n =? 179)%N || (n =? 185)%N.

(** The white space [int] skips around a literal: it does not skip
    FS..US, which [str.strip] removes. *)
Definition char_int_space (c : ascii) : bool :=
  let n := code c in
  between 9 13 n || (n =? 32)%N || (n =? 133)%N || (n =? 160)%N.

(** [c.lower()]. *)
Definition char_lower (c : ascii) : ascii :=
  let n := code c in
  if between 65 90 n || (between 192 222 n && negb (n =? 215)%N)
  then ascii_of_N (n + 32) else c.

(** Truth value of a string: [bool(s)]. *)
Definition truthy (s : string) : bool :=
  match s with EmptyString => false | String _ _ => true end.

Fixpoint all_chars (p : ascii -> bool) (s : string) : bool :=
  match s with
  | EmptyString => true
  | String c s' => p c && all_chars p s'
  end.

(** [s.isdigit()]: at least one character, and all of them digits. *)
Definition isdigit (s : string) : bool := truthy s && all_chars char_isdigit s.

Fixpoint lower (s : string) : string :=
  match s with
  | EmptyString => EmptyString
  | String c s' => String (char_lower c) (lower s')
  end.

Fixpoint lstrip_by (p : ascii -> bool) (s : string) : string :=
  match s with
  | EmptyString => EmptyString
  | String c s' => if p c then lstrip_by p s' else s
  end.

Fixpoint rstrip_by (p : ascii -> bool) (s : string) : string :=
  match s with
  | EmptyString => EmptyString
  | String c s' =>
      let r := rstrip_by p s' in
      if p c && negb (truthy r) then EmptyString else String c r
  end.

(** [s.strip()]. *)
Definition strip (s : string) : string :=
  rstrip_by char_isspace (lstrip_by char_isspace s).

(** ['.' in s]. *)
Fixpoint contains (c : ascii) (s : string) : bool :=
  match s with
  | EmptyString => false
  | String a s' => Ascii.eqb a c || contains c s'
  end.

(** The split of [s] at the last occurrence of [c], if there is one. *)
Fixpoint rsplit_last (c : ascii) (s : string) : option (string * string) :=
  match s with
  | EmptyString => None
  | String a s' =>
      match rsplit_last c s' with
      | Some (h, t) => Some (String a h, t)
      | None => if Ascii.eqb a c then Some (EmptyString, s') else None
      end
  end.

(** [s.rsplit(c, 1)]. *)
Definition rsplit1 (c : ascii) (s : string) : list string :=
  match rsplit_last c s with
  | Some (h, t) => [h; t]
  | None => [s]
  end.

Definition digit_val (c : ascii) : Z := Z.of_N (code c) - 48.

(** The digits of an [int] literal after its first digit: digits, each
    optionally preceded by one underscore. *)
Fixpoint int_digits (acc : Z) (s : string) : option Z :=
  match s with
  | EmptyString => Some acc
  | String c s' =>
      if char_isdecimal c then int_digits (10 * acc + digit_val c) s'
      else if Ascii.eqb c "_" then
        match s' with
        | String d s'' =>
            if char_isdecimal d then int_digits (10 * acc + digit_val d) s''
            else None
        | EmptyString => None
        end
      else None
  end.

(** [sys.int_info.default_max_str_digits]: the most digits a numeral
    may have for [int] to read it. *)
Definition int_max_str_digits : N := 4300.

(** The number of decimal digits of a literal; underscores do not
    count. *)
Fixpoint count_digits (s : string) : N :=
  match s with
  | EmptyString => 0
  | String c s' => (if char_isdecimal c then 1 else 0) + count_digits s'
  end.

Definition int_unsigned (s : string) : option Z :=
  match s with
  | String c s' =>
      if char_isdecimal c then
        if (count_digits s <=? int_max_str_digits)%N
        then int_digits (digit_val c) s'
        else None
      else None
  | EmptyString => None
  end.

(** [int(s)]: [None] stands for [ValueError], on a string that is no
    numeral as on a numeral of more digits than the limit. *)
Definition int (s : string) : option Z :=
  match rstrip_by char_int_space (lstrip_by char_int_space s) with
  | String "+" r => int_unsigned r
  | String "-" r => Z.opp <$> int_unsigned r
  | t => int_unsigned t
  end.

(** The value of a string of decimal digits, read left to right. *)
Fixpoint decimal_value_from (acc : Z) (s : string) : Z :=
  match s with
  | EmptyString => acc
  | String c s' => decimal_value_from (10 * acc + digit_val c) s'
  end.

Definition decimal_value (s : string) : Z := decimal_value_from 0 s.

(** A non-empty string of the digits 0 to 9. *)
Definition isdecimal (s : string) : bool := truthy s && all_chars char_isdecimal s.

End Py.

(** The superscript two, U+00B2. *)
Definition superscript_two : string := String (ascii_of_N 178) EmptyString.

(** ** JSON values, the file system and the session *)

(** The values [json.load] returns and [json.dump] writes; a Python [dict]
    keeps its keys in insertion order, so an object is an association
    list. Numbers that are not integers never occur in what the
    application writes and are left out. *)
#[warnings="-register-all"]
Inductive json : Type :=
  | JNull
  | JBool (b : bool)
  | JInt (z : Z)
  | JStr (s : string)
  | JList (l : list json)
  | JObj (kvs : list (string * json)).

(** The ways [json.load] fails on the opened file: bytes that are no text
    in the file's encoding, text that is no JSON, an integer literal longer
    than the limit of [int], nesting deeper than the recursion limit. *)
Inductive decode_failure : Type :=
  | NotText
  | NotJson
  | HugeNumber
  | TooDeep.

(** [registrations.json]: absent, not decodable, or holding a value. *)
Inductive store_file : Type :=
  | NoFile
  | Corrupt (how : decode_failure)
  | Json (v : json).

(** An uploaded part: [werkzeug.datastructures.FileStorage]. *)
Record FileStorage : Type := { filename : string; stream : string }.

(** What a request can observe and change: the flashed [(category,
    message)] pairs of the session, the store file and the files of the
    upload folder by path. [secure_filename] returns a bare file name, so a
    saved upload never lands on [registrations.json]: the two are separate
    components. *)
Record world : Type := World {
  session_flashes : list (string * string);
  registrations_json : store_file;
  upload_files : gmap string string
}.

Definition add_flashes (l : list (string * string)) (w : world) : world :=
  World (session_flashes w ++ l) (registrations_json w) (upload_files w).

Definition write_upload (path content : string) (w : world) : world :=
  World (session_flashes w) (registrations_json w) (<[path := content]> (upload_files w)).

Definition write_store (v : json) (w : world) : world :=
  World (session_flashes w) (Json v) (upload_files w).

Inductive exn : Type :=
  | ValueError
  | JSONDecodeError
  | UnicodeDecodeError
  | RecursionError
  | AttributeError
  | FileNotFoundError.

(** The exception each failure of [json.load] comes as. *)
Definition decode_error (how : decode_failure) : exn :=
  match how with
  | NotText => UnicodeDecodeError
  | NotJson => JSONDecodeError
  | HugeNumber => ValueError
  | TooDeep => RecursionError
  end.

Inductive result (A : Type) : Type :=
  | Ok (a : A)
  | Raise (e : exn).
Arguments Ok {A} a.
Arguments Raise {A} e.

(** A view function: a state transformer that returns or raises. *)
Definition M (A : Type) : Type := world -> result A * world.

#[export] Instance M_ret : MRet M := fun A a w => (Ok a, w).

#[export] Instance M_bind : MBind M := fun A B k m w =>
  match m w with
  | (Ok a, w') => k a w'
  | (Raise e, w') => (Raise e, w')
  end.

Definition raise {A : Type} (e : exn) : M A := fun w => (Raise e, w).

(** [flash(message, category)]. *)
Definition flash (message category : string) : M unit :=
  fun w => (Ok tt, add_flashes [(category, message)] w).

(** [int(s)] as a call that can raise. *)
Definition py_int (s : string) : M Z :=
  match Py.int s with
  | Some z => mret z
  | None => raise ValueError
  end.

(** [os.path.join(a, b)] on POSIX. *)
Definition path_join (a b : string) : string :=
  match b with
  | String "/" _ => b
  | _ => if negb (Py.truthy a) then b
         else if String.eqb (String.substring (String.length a - 1) 1 a) "/"
              then String.append a b
              else String.append a (String "/" b)
  end.

(** [image_file.save(path)]. *)
Definition save (f : FileStorage) (path : string) : M unit :=
  fun w => (Ok tt, write_upload path (stream f) w).

(** [os.path.exists("registrations.json")]. *)
Definition store_exists : M bool :=
  fun w => (Ok (match registrations_json w with NoFile => false | _ => true end), w).

(** [json.load] on the opened [registrations.json]: the decoded value, or
    the error of the decoder on a file that cannot be decoded. *)
Definition json_load_store : M json :=
  fun w => match registrations_json w with
           | Json v => (Ok v, w)
           | Corrupt how => (Raise (decode_error how), w)
           | NoFile => (Raise FileNotFoundError, w)
           end.

(** [json.dump(data, file, indent=2)] on [registrations.json] opened for
    writing. *)
Definition json_dump_store (data : json) : M unit :=
  fun w => (Ok tt, write_store data w).

(** The lookup of [data.append]: only a list has it. *)
Definition append_of (data : json) : M (json -> json) :=
  match data with
  | JList l => mret (fun x => JList (l ++ [x]))
  | _ => raise AttributeError
  end.

(** What a view returns. *)
Inductive response : Type :=
  | redirect (location : string)
  | render_template (template : string) (registrations : option json).

Definition url_for (endpoint : string) : string := String "/" endpoint.

(** ** The application, [src/app.py] *)

Definition UPLOAD_FOLDER : string := "uploads".

Definition ALLOWED_EXTENSIONS : gset string := {[ "png"; "jpg"; "jpeg"; "pdf" ]}.

(** [allowed_file(filename)]. *)
Definition allowed_file (filename : string) : bool :=
  Py.contains "." filename &&
  match Py.rsplit1 "." filename !! 1%nat with
  | Some ext => bool_decide (Py.lower ext ∈ ALLOWED_EXTENSIONS)
  | None => false
  end.

(** [request.form.get(key, default)]. *)
Definition form_get (form : gmap string string) (key default : string) : string :=
  match form !! key with
  | Some v => v
  | None => default
  end.

(** The local variables [submit_form] collects from the form. *)
Record Fields : Type := {
  name : string;
  country : string;
  age : string;
  gender : string;
  dob : string;
  phone : string;
  id_type : string;
  id_value : string;
  emergency_name : string;
  emergency_phone : string;
  traveling_family : string;
  medical_concerns : string;
  medical_details : string;
  current_residence : string
}.

(** Step 1 of [submit_form]: collect the form inputs. *)
Definition collect (form : gmap string string) : Fields := {|
  name := Py.strip (form_get form "name" EmptyString);
  country := Py.strip (form_get form "country" EmptyString);
  age := Py.strip (form_get form "age" EmptyString);
  gender := form_get form "gender" EmptyString;
  dob := form_get form "dob" EmptyString;
  phone := Py.strip (form_get form "phone" EmptyString);
  id_type := form_get form "id_type" EmptyString;
  id_value := Py.strip (form_get form "id_value" EmptyString);
  emergency_name := Py.strip (form_get form "emergency_name" EmptyString);
  emergency_phone := Py.strip (form_get form "emergency_phone" EmptyString);
  traveling_family := Py.strip (form_get form "traveling_family" EmptyString);
  medical_concerns := form_get form "medical_concerns" EmptyString;
  medical_details := Py.strip (form_get form "medical_details" EmptyString);
  current_residence := Py.strip (form_get form "current_residence" EmptyString)
|}.

(** The statement [if c: flash(message, "error"); error = True]; the
    result is the new value of [error]. *)
Definition fail_if (c : bool) (message : string) (error : bool) : M bool :=
  if c then flash message "error" ;; mret true else mret error.

(** [age and (not age.isdigit() or int(age) <= 0)], with Python's
    short-circuit evaluation. *)
Definition age_not_positive (age : string) : M bool :=
  if Py.truthy age then
    if negb (Py.isdigit age) then mret true
    else n ← py_int age; mret (n <=? 0)%Z
  else mret false.

Definition id_number_message (id_type : string) : string :=
  String.append "Please enter your " (String.append id_type " number").

(** Step 2 of [submit_form], the field rules; the result is [error]. *)
Definition validate_fields (f : Fields) : M bool :=
  let error := false in
  error ← fail_if (negb (Py.truthy (name f))) "Full Name is required" error;
  error ← fail_if (negb (Py.truthy (country f))) "Country of Origin is required" error;
  error ← fail_if (negb (Py.truthy (age f))) "Age is required" error;
  c ← age_not_positive (age f);
  error ← fail_if c "Age must be a positive number" error;
  error ← fail_if (negb (Py.truthy (gender f))) "Gender is required" error;
  error ← fail_if (negb (Py.truthy (dob f))) "Date of Birth is required" error;
  error ← fail_if (Py.truthy (phone f) && negb (Py.isdigit (phone f)))
            "Phone number must contain only digits" error;
  error ← fail_if (Py.truthy (id_type f) && negb (Py.truthy (id_value f)))
            (id_number_message (id_type f)) error;
  error ← fail_if (String.eqb (medical_concerns f) "Yes" && negb (Py.truthy (medical_details f)))
            "Please specify your medical concerns" error;
  mret error.

(** [image_file and image_file.filename != (empty string)]; a [FileStorage] is true
    when its file name is. *)
Definition file_given (image_file : option FileStorage) : bool :=
  match image_file with
  | Some f => Py.truthy (filename f) && negb (String.eqb (filename f) EmptyString)
  | None => false
  end.

Definition file_type_message : string :=
  "Invalid file type. Only PNG, JPG, JPEG, or PDF allowed.".

Section App.

Variable secure_filename : string -> string.

(** Step 2 of [submit_form], the file rule; the result is [error] and
    [image_filename]. The file is saved here, before [error] is
    looked at. *)
Definition validate_file (image_file : option FileStorage) (error : bool)
  : M (bool * option string) :=
  let image_filename : option string := None in
  match image_file with
  | Some f =>
      if file_given image_file then
        if negb (allowed_file (filename f)) then
          flash file_type_message "error" ;; mret (true, image_filename)
        else
          let filename := secure_filename (filename f) in
          save f (path_join UPLOAD_FOLDER filename) ;;
          mret (error, Some filename)
      else mret (error, image_filename)
  | None => mret (error, image_filename)
  end.

(** The dictionary [submit_form] appends. *)
Definition registration (f : Fields) (n : Z) (image_filename : option string) : json :=
  JObj [ ("name", JStr (name f));
         ("country", JStr (country f));
         ("age", JInt n);
         ("gender", JStr (gender f));
         ("dob", JStr (dob f));
         ("phone", JStr (phone f));
         ("id_type", JStr (id_type f));
         ("id_value", JStr (id_value f));
         ("emergency_name", JStr (emergency_name f));
         ("emergency_phone", JStr (emergency_phone f));
         ("traveling_family", JStr (traveling_family f));
         ("medical_concerns", JStr (medical_concerns f));
         ("medical_details", JStr (medical_details f));
         ("current_residence", JStr (current_residence f));
         ("image_filename", match image_filename with
                            | Some s => JStr s
                            | None => JNull
                            end) ].

(** The load both [submit_form] and [view_registrations] start with. *)
Definition load_registrations : M json :=
  present ← store_exists;
  match present with
  | true => json_load_store
  | false => mret (JList [])
  end.

(** Steps 3 and 4 of [submit_form]: save to JSON, flash the success. *)
Definition save_registration (f : Fields) (image_filename : option string) : M response :=
  data ← load_registrations;
  append ← append_of data;
  n ← py_int (age f);
  json_dump_store (append (registration f n image_filename)) ;;
  flash "Registration submitted successfully!" "success" ;;
  mret (redirect (url_for "register")).

(** [submit_form()], the view of [POST /submit]. *)
Definition submit_form (form : gmap string string) (files : gmap string FileStorage)
  : M response :=
  let f := collect form in
  let image_file := files !! "image" in
  error ← validate_fields f;
  r ← validate_file image_file error;
  match r with
  | (true, _) => mret (redirect (url_for "register"))
  | (false, image_filename) => save_registration f image_filename
  end.

(** [view_registrations()], the view of [GET /view]. *)
Definition view_registrations : M response :=
  data ← load_registrations;
  mret (render_template "view.html" (Some data)).

(** [index()] and [register()], the views of [GET /] and
    [GET /register]. *)
Definition index : M response := mret (render_template "index.html" None).
Definition register : M response := mret (render_template "register.html" None).

(** ** The requests of the application *)

Inductive request : Type :=
  | GetIndex
  | GetRegister
  | PostSubmit (form : gmap string string) (files : gmap string FileStorage)
  | GetView.

(** The view each route dispatches to. *)
Definition handle (req : request) : M response :=
  match req with
  | GetIndex => index
  | GetRegister => register
  | PostSubmit form files => submit_form form files
  | GetView => view_registrations
  end.

(** Requests served one after the other; a request that raises is
    answered with an error page and the next one is served. *)
Fixpoint handle_all (reqs : list request) (w : world) : world :=
  match reqs with
  | [] => w
  | req :: reqs' => handle_all reqs' (handle req w).2
  end.

(** ** Notions the properties are stated with *)

(** The file a submission uploads: the part named [image], when it has a
    file name. *)
Definition uploaded_file (files : gmap string FileStorage) : option FileStorage :=
  match files !! "image" with
  | Some fs => if Py.truthy (filename fs) then Some fs else None
  | None => None
  end.

(** The name recorded for the upload of an accepted submission. *)
Definition recorded_filename (files : gmap string FileStorage) : option string :=
  match uploaded_file files with
  | Some fs => if allowed_file (filename fs) then Some (secure_filename (filename fs)) else None
  | None => None
  end.

(** The effect of the file rule on the upload folder. *)
Definition store_upload (files : gmap string FileStorage) (w : world) : world :=
  match uploaded_file files with
  | Some fs =>
      if allowed_file (filename fs)
      then write_upload (path_join UPLOAD_FOLDER (secure_filename (filename fs))) (stream fs) w
      else w
  | None => w
  end.

(** The record a successful submission persists. *)
Definition built_record (form : gmap string string) (files : gmap string FileStorage) : json :=
  registration (collect form) (Py.decimal_value (age (collect form))) (recorded_filename files).

End App.

Definition success_flash : string * string :=
  ("success", "Registration submitted successfully!").

Definition errors (l : list string) : list (string * string) :=
  map (fun m => ("error", m)) l.

Definition msg_if (c : bool) (m : string) : list string := if c then [m] else [].

Definition has_messages (l : list string) : bool :=
  match l with [] => false | _ :: _ => true end.

(** The age check raises: the digits pass [isdigit] and [int] refuses
    them. *)
Definition age_raises (a : string) : bool :=
  Py.isdigit a && match Py.int a with Some _ => false | None => true end.

(** The age check flashes its message. *)
Definition age_rejected (a : string) : bool :=
  Py.truthy a &&
  (negb (Py.isdigit a) || match Py.int a with Some n => (n <=? 0)%Z | None => false end).

Definition age_required_message : string := "Age is required".
Definition age_positive_message : string := "Age must be a positive number".

(** The messages of the violated rules, in the order of the rules. *)
Definition early_messages (f : Fields) : list string :=
  msg_if (negb (Py.truthy (name f))) "Full Name is required" ++
  msg_if (negb (Py.truthy (country f))) "Country of Origin is required" ++
  msg_if (negb (Py.truthy (age f))) age_required_message.

Definition late_messages (f : Fields) : list string :=
  msg_if (negb (Py.truthy (gender f))) "Gender is required" ++
  msg_if (negb (Py.truthy (dob f))) "Date of Birth is required" ++
  msg_if (Py.truthy (phone f) && negb (Py.isdigit (phone f)))
    "Phone number must contain only digits" ++
  msg_if (Py.truthy (id_type f) && negb (Py.truthy (id_value f)))
    (id_number_message (id_type f)) ++
  msg_if (String.eqb (medical_concerns f) "Yes" && negb (Py.truthy (medical_details f)))
    "Please specify your medical concerns".

Definition field_messages (f : Fields) : list string :=
  early_messages f ++ msg_if (age_rejected (age f)) age_positive_message ++ late_messages f.

Definition file_messages (files : gmap string FileStorage) : list string :=
  match uploaded_file files with
  | Some fs => msg_if (negb (allowed_file (filename fs))) file_type_message
  | None => []
  end.

Definition error_messages (form : gmap string string) (files : gmap string FileStorage)
  : list string :=
  field_messages (collect form) ++ file_messages files.

(** The pairs a request added to the flashed messages of the session. *)
Definition new_flashes (w w' : world) : list (string * string) :=
  drop (length (session_flashes w)) (session_flashes w').

(** The submission went through: redirect and success notice. *)
Definition successful (w : world) (r : result response * world) : Prop :=
  r.1 = Ok (redirect (url_for "register")) /\ success_flash ∈ new_flashes w r.2.

(** The submission was turned down with validation messages. *)
Definition rejected (w : world) (r : result response * world) : Prop :=
  r.1 = Ok (redirect (url_for "register")) /\
  exists m, ("error", m) ∈ new_flashes w r.2.

(** The persisted sequence, when the store holds one; an absent file is
    the empty sequence. *)
Definition stored_records (w : world) : option (list json) :=
  match registrations_json w with
  | NoFile => Some []
  | Json (JList l) => Some l
  | _ => None
  end.

(** The error [submit_form] raises on a store that holds no sequence. *)
Definition store_error (w : world) : exn :=
  match registrations_json w with
  | Corrupt how => decode_error how
  | NoFile => FileNotFoundError
  | Json _ => AttributeError
  end.

(** The four ways a call of [submit_form] ends. *)
Inductive submit_outcome (secure_filename : string -> string)
    (form : gmap string string) (files : gmap string FileStorage) (w : world)
  : result response * world -> Prop :=
  | outcome_raises :
      age_raises (age (collect form)) = true ->
      submit_outcome secure_filename form files w
        (Raise ValueError, add_flashes (errors (early_messages (collect form))) w)
  | outcome_rejected :
      age_raises (age (collect form)) = false ->
      error_messages form files <> [] ->
      submit_outcome secure_filename form files w
        (Ok (redirect (url_for "register")),
         store_upload secure_filename files
           (add_flashes (errors (error_messages form files)) w))
  | outcome_unusable :
      age_raises (age (collect form)) = false ->
      error_messages form files = [] ->
      stored_records w = None ->
      submit_outcome secure_filename form files w
        (Raise (store_error w), store_upload secure_filename files w)
  | outcome_stored (l : list json) :
      age_raises (age (collect form)) = false ->
      error_messages form files = [] ->
      stored_records w = Some l ->
      submit_outcome secure_filename form files w
        (Ok (redirect (url_for "register")),
         add_flashes [success_flash]
           (write_store (JList (l ++ [built_record secure_filename form files]))
              (store_upload secure_filename files w))).

(** The extension of a file name: what follows its last dot, if it has a
    dot. *)
Definition extension (filename : string) : option string :=
  snd <$> Py.rsplit_last "." filename.

(** An age-specific validation error was flashed. *)
Definition age_error_flashed (w w' : world) : Prop :=
  ("error", age_required_message) ∈ new_flashes w w' \/
  ("error", age_positive_message) ∈ new_flashes w w'.

(** [v[k]] on a decoded JSON object. *)
Definition obj_get (k : string) (v : json) : option json :=
  match v with
  | JObj kvs => snd <$> List.find (fun kv => String.eqb (fst kv) k) kvs
  | _ => None
  end.

(** A validation rule is violated, rule by rule as the form states
    them; [name], [country], [age] and the other trimmed fields are read
    after trimming, and a digit is what [str.isdigit] takes for one. *)
Inductive rule_violated (form : gmap string string) (files : gmap string FileStorage)
  : Prop :=
  | missing_name :
      name (collect form) = EmptyString -> rule_violated form files
  | missing_country :
      country (collect form) = EmptyString -> rule_violated form files
  | missing_age :
      age (collect form) = EmptyString -> rule_violated form files
  | missing_gender :
      gender (collect form) = EmptyString -> rule_violated form files
  | missing_dob :
      dob (collect form) = EmptyString -> rule_violated form files
  | age_non_numeric :
      age (collect form) <> EmptyString ->
      Py.isdigit (age (collect form)) = false \/ Py.int (age (collect form)) = None ->
      rule_violated form files
  | age_non_positive (n : Z) :
      Py.int (age (collect form)) = Some n -> (n <= 0)%Z -> rule_violated form files
  | phone_non_digit :
      Py.all_chars Py.char_isdigit (phone (collect form)) = false ->
      rule_violated form files
  | id_value_missing :
      id_type (collect form) <> EmptyString -> id_value (collect form) = EmptyString ->
      rule_violated form files
  | medical_details_missing :
      medical_concerns (collect form) = "Yes" ->
      medical_details (collect form) = EmptyString ->
      rule_violated form files
  | file_disallowed (fs : FileStorage) :
      uploaded_file files = Some fs -> allowed_file (filename fs) = false ->
      rule_violated form files.

(** The trimmed age passes the age rules: digit characters only, which
    [int] reads as a number greater than zero. *)
Definition age_accepted (a : string) : Prop :=
  Py.isdigit a = true /\ exists n, Py.int a = Some n /\ (0 < n)%Z.

(** The rules of [submit_form] other than those on the age are met. *)
Definition rules_besides_age (form : gmap string string) (files : gmap string FileStorage)
  : Prop :=
  let f := collect form in
  name f <> EmptyString /\
  country f <> EmptyString /\
  gender f <> EmptyString /\
  dob f <> EmptyString /\
  (phone f = EmptyString \/ Py.isdigit (phone f) = true) /\
  (id_type f = EmptyString \/ id_value f <> EmptyString) /\
  (medical_concerns f = "Yes" -> medical_details f <> EmptyString) /\
  (forall fs, uploaded_file files = Some fs -> allowed_file (filename fs) = true).

(** The record the data model expects of a validated submission, written
    from the form and not from [registration], with which it is compared:
    the values as sent, trimmed where the form is trimmed, the age as the
    integer [n], and the secured name of the uploaded file or null. *)
Definition expected_record (secure_filename : string -> string)
    (form : gmap string string) (files : gmap string FileStorage) (n : Z) : json :=
  JObj [ ("name", JStr (Py.strip (form_get form "name" EmptyString)));
         ("country", JStr (Py.strip (form_get form "country" EmptyString)));
         ("age", JInt n);
         ("gender", JStr (form_get form "gender" EmptyString));
         ("dob", JStr (form_get form "dob" EmptyString));
         ("phone", JStr (Py.strip (form_get form "phone" EmptyString)));
         ("id_type", JStr (form_get form "id_type" EmptyString));
         ("id_value", JStr (Py.strip (form_get form "id_value" EmptyString)));
         ("emergency_name", JStr (Py.strip (form_get form "emergency_name" EmptyString)));
         ("emergency_phone", JStr (Py.strip (form_get form "emergency_phone" EmptyString)));
         ("traveling_family", JStr (Py.strip (form_get form "traveling_family" EmptyString)));
         ("medical_concerns", JStr (form_get form "medical_concerns" EmptyString));
         ("medical_details", JStr (Py.strip (form_get form "medical_details" EmptyString)));
         ("current_residence", JStr (Py.strip (form_get form "current_residence" EmptyString)));
         ("image_filename", match uploaded_file files with
                            | Some fs => JStr (secure_filename (filename fs))
                            | None => JNull
                            end) ].

Definition obj_keys (v : json) : list string :=
  match v with
  | JObj kvs => map fst kvs
  | _ => []
  end.

Definition str_field (k : string) (v : json) : option string :=
  match obj_get k v with
  | Some (JStr s) => Some s
  | _ => None
  end.

Definition nonempty_field (k : string) (v : json) : Prop :=
  exists s, str_field k v = Some s /\ s <> EmptyString.

(** The invariant of a persisted record. *)
Definition record_invariant (v : json) : Prop :=
  nonempty_field "name" v /\
  nonempty_field "country" v /\
  nonempty_field "gender" v /\
  nonempty_field "dob" v /\
  (exists n, obj_get "age" v = Some (JInt n) /\ (0 < n)%Z) /\
  (forall t, str_field "id_type" v = Some t -> t <> EmptyString ->
             nonempty_field "id_value" v) /\
  (str_field "medical_concerns" v = Some "Yes" -> nonempty_field "medical_details" v).

(** The keys of a persisted record, in the order they are written. *)
Definition registration_keys : list string :=
  [ "name"; "country"; "age"; "gender"; "dob"; "phone"; "id_type"; "id_value";
    "emergency_name"; "emergency_phone"; "traveling_family"; "medical_concerns";
    "medical_details"; "current_residence"; "image_filename" ].

(** The text fields a submission may leave out. *)
Definition optional_fields : list string :=
  [ "phone"; "id_type"; "id_value"; "emergency_name"; "emergency_phone";
    "traveling_family"; "medical_concerns"; "medical_details"; "current_residence" ].

Section Sequences.

Variable secure_filename : string -> string.

(** Submissions made one after the other. *)
Fixpoint submit_all (subs : list (gmap string string * gmap string FileStorage))
    (w : world) : world :=
  match subs with
  | [] => w
  | (form, files) :: rest => submit_all rest (submit_form secure_filename form files w).2
  end.

(** Each of them went through. *)
Fixpoint all_successful (subs : list (gmap string string * gmap string FileStorage))
    (w : world) : Prop :=
  match subs with
  | [] => True
  | (form, files) :: rest =>
      successful w (submit_form secure_filename form files w) /\
      all_successful rest (submit_form secure_filename form files w).2
  end.

End Sequences.

(** ** Sample requests *)

(** A stand-in for [secure_filename] on the file names of the samples,
    which are made of ASCII letters, digits and one inner dot and are
    returned as they are. *)
Definition keep_filename (s : string) : string := s.

Definition empty_world : world := World [] NoFile ∅.

Definition amina : gmap string string :=
  list_to_map [ ("name", "Amina"); ("country", "Syria"); ("age", "34");
                ("gender", "F"); ("dob", "1990-01-01") ].

Definition photo : gmap string FileStorage :=
  {[ "image" := {| filename := "photo.png"; stream := "PNG data" |} ]}.

Definition notes_exe : gmap string FileStorage :=
  {[ "image" := {| filename := "notes.exe"; stream := "MZ" |} ]}.

(** ** Notions of the further properties *)

(** The submission meets every rule of [submit_form]. *)
Definition acceptable (form : gmap string string) (files : gmap string FileStorage) : Prop :=
  age_accepted (age (collect form)) /\ rules_besides_age form files.

(** The keys of the text fields [submit_form] trims before it stores
    them. *)
Definition trimmed_text_fields : list string :=
  [ "name"; "country"; "phone"; "id_value"; "emergency_name"; "emergency_phone";
    "traveling_family"; "medical_details"; "current_residence" ].

(** The form keys [submit_form] trims. *)
Definition trimmed_keys : list string := "age" :: trimmed_text_fields.

(** A string that does not begin with a character of the class [p]. *)
Definition starts_clean (p : ascii -> bool) (s : string) : Prop :=
  match s with
  | EmptyString => True
  | String c _ => p c = false
  end.

(** The requests that are not submissions. *)
Definition is_get (req : request) : bool :=
  match req with
  | PostSubmit _ _ => false
  | _ => true
  end.

Definition phone_message : string := "Phone number must contain only digits".
Definition medical_message : string := "Please specify your medical concerns".
Definition name_message : string := "Full Name is required".
Definition country_message : string := "Country of Origin is required".
Definition gender_message : string := "Gender is required".
Definition dob_message : string := "Date of Birth is required".

(** A world whose store file is no JSON. *)
Definition corrupt_world : world := World [] (Corrupt NotJson) ∅.

(** The form keys [submit_form] reads. *)
Definition form_keys : list string :=
  [ "name"; "country"; "age"; "gender"; "dob"; "phone"; "id_type"; "id_value";
    "emergency_name"; "emergency_phone"; "traveling_family"; "medical_concerns";
    "medical_details"; "current_residence" ].


(** ** Facts about the string primitives *)

Example strip_spaces : Py.strip "  Amina " = "Amina". Proof. reflexivity. Qed.
Example strip_inner : Py.strip " a b " = "a b". Proof. reflexivity. Qed.
Example strip_blank : Py.strip "   " = EmptyString. Proof. reflexivity. Qed.
Example rsplit1_two : Py.rsplit1 "." "a.b.PNG" = ["a.b"; "PNG"]. Proof. reflexivity. Qed.
Example rsplit1_none : Py.rsplit1 "." "abc" = ["abc"]. Proof. reflexivity. Qed.
Example rsplit1_lead : Py.rsplit1 "." ".png" = [EmptyString; "png"]. Proof. reflexivity. Qed.
Example int_plain : Py.int "34" = Some 34%Z. Proof. reflexivity. Qed.
Example int_zeros : Py.int "007" = Some 7%Z. Proof. reflexivity. Qed.
Example int_signed : Py.int "-5" = Some (-5)%Z. Proof. reflexivity. Qed.
Example int_plus : Py.int "+5" = Some 5%Z. Proof. reflexivity. Qed.
Example int_under : Py.int "5_0" = Some 50%Z. Proof. reflexivity. Qed.
Example int_under2 : Py.int "5__0" = None. Proof. reflexivity. Qed.
Example int_space : Py.int " 5 " = Some 5%Z. Proof. reflexivity. Qed.
Example int_dot : Py.int "5.0" = None. Proof. reflexivity. Qed.
Example int_empty : Py.int EmptyString = None. Proof. reflexivity. Qed.
Example int_sign_space : Py.int "+ 5" = None. Proof. reflexivity. Qed.
Example isdigit_super : Py.isdigit superscript_two = true. Proof. reflexivity. Qed.
Example int_super : Py.int superscript_two = None. Proof. reflexivity. Qed.
Example lower_ext : Py.lower "JpEg" = "jpeg". Proof. reflexivity. Qed.

Ltac each_char c := destruct c as [[] [] [] [] [] [] [] []].

Lemma digit_not_int_space c : Py.char_isdigit c = true -> Py.char_int_space c = false.
Proof. each_char c; vm_compute; congruence. Qed.

Lemma digit_not_sign c :
  Py.char_isdigit c = true -> c <> "+"%char /\ c <> "-"%char /\ Ascii.eqb c "_" = false.
Proof. each_char c; vm_compute; repeat split; congruence. Qed.

Lemma decimal_is_digit c : Py.char_isdecimal c = true -> Py.char_isdigit c = true.
Proof. unfold Py.char_isdigit. intros ->. reflexivity. Qed.

Lemma digit_val_range c : Py.char_isdecimal c = true -> (0 <= Py.digit_val c <= 9)%Z.
Proof. each_char c; vm_compute; intuition congruence. Qed.

Lemma all_chars_weaken (p q : ascii -> bool) s :
  (forall c, p c = true -> q c = true) ->
  Py.all_chars p s = true -> Py.all_chars q s = true.
Proof.
  intros Hpq. induction s as [|c s IH]; simpl; [done|].
  rewrite !andb_true_iff. intros [Hc Hs]. split; [by apply Hpq | by apply IH].
Qed.

Lemma truthy_true s : Py.truthy s = true <-> s <> EmptyString.
Proof. destruct s; simpl; split; congruence. Qed.

Lemma truthy_false s : Py.truthy s = false <-> s = EmptyString.
Proof. destruct s; simpl; split; congruence. Qed.

(** Stripping leaves a string alone when none of its characters is
    stripped. *)
Lemma lstrip_by_id p s : Py.all_chars (fun c => negb (p c)) s = true -> Py.lstrip_by p s = s.
Proof.
  destruct s as [|c s]; simpl; [done|].
  rewrite andb_true_iff, negb_true_iff. by intros [-> _].
Qed.

Lemma rstrip_by_id p s : Py.all_chars (fun c => negb (p c)) s = true -> Py.rstrip_by p s = s.
Proof.
  induction s as [|c s IH]; simpl; [done|].
  rewrite andb_true_iff, negb_true_iff. intros [-> Hs]. simpl. by rewrite IH.
Qed.

(** On digits [int_digits] succeeds exactly when they are all decimal, and
    then reads their value. *)
Lemma int_digits_digits s : forall acc,
  Py.all_chars Py.char_isdigit s = true ->
  Py.int_digits acc s =
    if Py.all_chars Py.char_isdecimal s then Some (Py.decimal_value_from acc s) else None.
Proof.
  induction s as [|c s IH]; intros acc; simpl; [done|].
  rewrite andb_true_iff. intros [Hc Hs].
  destruct (Py.char_isdecimal c) eqn:Hd; simpl.
  - by apply IH.
  - destruct (digit_not_sign c Hc) as (_ & _ & ->). reflexivity.
Qed.

Lemma int_isdigit s :
  Py.isdigit s = true ->
  Py.int s =
    if Py.isdecimal s && (Py.count_digits s <=? Py.int_max_str_digits)%N
    then Some (Py.decimal_value s) else None.
Proof.
  unfold Py.isdigit, Py.isdecimal. rewrite andb_true_iff. intros [Ht Hall].
  unfold Py.int.
  rewrite lstrip_by_id, rstrip_by_id;
    try (eapply all_chars_weaken; [|exact Hall];
         intros c Hc; by rewrite (digit_not_int_space c Hc)).
  destruct s as [|c s]; [done|]. cbn [Py.truthy Py.all_chars andb] in Hall |- *.
  apply andb_true_iff in Hall as [Hc Hs].
  destruct (digit_not_sign c Hc) as (Hplus & Hminus & _).
  assert (Hgo : Py.int_unsigned (String c s) =
                if (Py.char_isdecimal c && Py.all_chars Py.char_isdecimal s) &&
                   (Py.count_digits (String c s) <=? Py.int_max_str_digits)%N
                then Some (Py.decimal_value (String c s)) else None).
  { unfold Py.int_unsigned. destruct (Py.char_isdecimal c) eqn:Hd; [|done].
    destruct (Py.count_digits (String c s) <=? Py.int_max_str_digits)%N;
      [|by rewrite andb_false_r].
    rewrite int_digits_digits by done. unfold Py.decimal_value.
    cbn [Py.decimal_value_from andb]. rewrite andb_true_r.
    replace (10 * 0 + Py.digit_val c)%Z with (Py.digit_val c) by lia. reflexivity. }
  each_char c; try (exfalso; by (apply Hplus || apply Hminus)); exact Hgo.
Qed.

Lemma isdecimal_isdigit s : Py.isdecimal s = true -> Py.isdigit s = true.
Proof.
  unfold Py.isdecimal, Py.isdigit. rewrite !andb_true_iff. intros [-> H]. split; [done|].
  eapply all_chars_weaken; [apply decimal_is_digit | exact H].
Qed.

Lemma int_isdecimal s :
  Py.isdecimal s = true -> (Py.count_digits s <= Py.int_max_str_digits)%N ->
  Py.int s = Some (Py.decimal_value s).
Proof.
  intros H Hlen. rewrite int_isdigit by by apply isdecimal_isdigit.
  apply N.leb_le in Hlen. by rewrite H, Hlen.
Qed.

Lemma decimal_value_from_nonneg s : forall acc,
  Py.all_chars Py.char_isdecimal s = true -> (0 <= acc)%Z ->
  (0 <= Py.decimal_value_from acc s)%Z.
Proof.
  induction s as [|c s IH]; intros acc; simpl; [done|].
  rewrite andb_true_iff. intros [Hc Hs] Hacc. apply IH; [done|].
  pose proof (digit_val_range c Hc). lia.
Qed.

Lemma decimal_value_nonneg s : Py.isdecimal s = true -> (0 <= Py.decimal_value s)%Z.
Proof.
  unfold Py.isdecimal. rewrite andb_true_iff. intros [_ H].
  by apply decimal_value_from_nonneg.
Qed.

(** ** Running the views *)

Lemma bind_run {A B : Type} (m : M A) (k : A -> M B) (w : world) :
  (m ≫= k) w = match m w with
               | (Ok a, w') => k a w'
               | (Raise e, w') => (Raise e, w')
               end.
Proof. reflexivity. Qed.

Lemma ret_run {A : Type} (a : A) (w : world) : mret (M := M) a w = (Ok a, w).
Proof. reflexivity. Qed.

Lemma add_flashes_nil w : add_flashes [] w = w.
Proof. destruct w. unfold add_flashes. simpl. by rewrite app_nil_r. Qed.

Lemma add_flashes_app l1 l2 w : add_flashes l2 (add_flashes l1 w) = add_flashes (l1 ++ l2) w.
Proof. unfold add_flashes. simpl. by rewrite app_assoc. Qed.

Lemma errors_app l1 l2 : errors (l1 ++ l2) = errors l1 ++ errors l2.
Proof. apply map_app. Qed.

Lemma has_messages_app l1 l2 : has_messages (l1 ++ l2) = has_messages l1 || has_messages l2.
Proof. by destruct l1. Qed.

Lemma has_messages_msg_if c m : has_messages (msg_if c m) = c.
Proof. by destruct c. Qed.

Lemma has_messages_false l : has_messages l = false <-> l = [].
Proof. destruct l; simpl; split; congruence. Qed.

Lemma new_flashes_add l w : new_flashes w (add_flashes l w) = l.
Proof. unfold new_flashes. simpl. by rewrite drop_app_length. Qed.

Lemma fail_if_run c message error w :
  fail_if c message error w = (Ok (error || c), add_flashes (errors (msg_if c message)) w).
Proof.
  unfold fail_if. destruct c; simpl.
  - by rewrite orb_true_r.
  - by rewrite orb_false_r, add_flashes_nil.
Qed.

Lemma isdigit_truthy s : Py.isdigit s = true -> Py.truthy s = true.
Proof. unfold Py.isdigit. by intros [-> _]%andb_true_iff. Qed.

Lemma age_not_positive_run a w :
  age_not_positive a w =
    if age_raises a then (Raise ValueError, w) else (Ok (age_rejected a), w).
Proof.
  unfold age_not_positive, age_raises, age_rejected, py_int.
  destruct (Py.isdigit a) eqn:Hd; simpl.
  - rewrite (isdigit_truthy a Hd). by destruct (Py.int a).
  - destruct (Py.truthy a); reflexivity.
Qed.

Lemma validate_fields_run f w :
  validate_fields f w =
    if age_raises (age f)
    then (Raise ValueError, add_flashes (errors (early_messages f)) w)
    else (Ok (has_messages (field_messages f)), add_flashes (errors (field_messages f)) w).
Proof.
  unfold validate_fields.
  do 3 (rewrite bind_run, fail_if_run).
  rewrite bind_run, age_not_positive_run.
  rewrite !add_flashes_app, <- !errors_app.
  destruct (age_raises (age f)); [reflexivity|].
  do 6 (rewrite bind_run, fail_if_run).
  rewrite ret_run, !add_flashes_app, <- !errors_app.
  unfold field_messages, early_messages, late_messages.
  rewrite !has_messages_app, !has_messages_msg_if, <- !app_assoc, !orb_assoc.
  reflexivity.
Qed.

Lemma file_given_uploaded files :
  file_given (files !! "image") = bool_decide (is_Some (uploaded_file files)).
Proof.
  unfold file_given, uploaded_file.
  destruct (files !! "image") as [fs|]; [|done].
  destruct (filename fs); simpl; done.
Qed.

Lemma msg_if_nil c m : msg_if c m = [] <-> c = false.
Proof. destruct c; simpl; split; congruence. Qed.

(** An age that neither raises nor is flashed is a decimal numeral of a
    positive number. *)
Lemma accepted_age a :
  Py.truthy a = true -> age_raises a = false -> age_rejected a = false ->
  Py.isdecimal a = true /\ Py.int a = Some (Py.decimal_value a) /\ (0 < Py.decimal_value a)%Z.
Proof.
  unfold age_raises, age_rejected. intros -> Hraise Hrej. simpl in Hrej.
  destruct (Py.isdigit a) eqn:Hd; [|done]. simpl in *.
  rewrite (int_isdigit a Hd) in *.
  destruct (Py.isdecimal a); [|done].
  destruct (Py.count_digits a <=? Py.int_max_str_digits)%N; [|done]. simpl in *.
  repeat split. apply Z.leb_gt in Hrej. lia.
Qed.

(** The age rules are met exactly when the age check neither raises nor
    flashes. *)
Lemma age_accepted_iff a :
  age_accepted a <->
  Py.truthy a = true /\ age_raises a = false /\ age_rejected a = false.
Proof.
  unfold age_accepted, age_raises, age_rejected. split.
  - intros (Hd & n & Hn & Hpos). rewrite (isdigit_truthy a Hd), Hd, Hn. simpl.
    repeat split. apply Z.leb_gt. lia.
  - intros (Ht & Hraise & Hrej). rewrite Ht in Hrej. simpl in Hrej.
    destruct (Py.isdigit a); [|done]. simpl in *.
    destruct (Py.int a) as [n|]; [|done].
    split; [done|]. exists n. split; [done|]. apply Z.leb_gt in Hrej. lia.
Qed.

Lemma age_rejected_iff a :
  age_rejected a = true <->
  a <> EmptyString /\
  (Py.isdigit a = false \/ exists n, Py.int a = Some n /\ (n <= 0)%Z).
Proof.
  unfold age_rejected. rewrite andb_true_iff, orb_true_iff, negb_true_iff, truthy_true.
  split.
  - intros [Hne [Hd|Hn]]; (split; [done|]); [by left|].
    destruct (Py.int a) as [n|]; [|done]. right. exists n. split; [done|].
    by apply Z.leb_le.
  - intros [Hne [Hd|(n & Hn & Hle)]]; (split; [done|]); [by left|].
    right. rewrite Hn. by apply Z.leb_le.
Qed.

Section Facts.

Variable secure_filename : string -> string.

Lemma validate_file_run files error w :
  validate_file secure_filename (files !! "image") error w =
    (Ok (error || has_messages (file_messages files),
         recorded_filename secure_filename files),
     store_upload secure_filename files (add_flashes (errors (file_messages files)) w)).
Proof.
  unfold validate_file, file_messages, recorded_filename, store_upload,
    uploaded_file, file_given.
  destruct (files !! "image") as [fs|]; cbn beta iota;
    [|by destruct error; cbn; rewrite ?add_flashes_nil].
  destruct (filename fs) as [|c s] eqn:Hname;
    [by destruct error; cbn; rewrite ?add_flashes_nil|].
  cbn. rewrite !Hname.
  destruct (allowed_file (String c s)); destruct error; cbn;
    rewrite ?add_flashes_nil; reflexivity.
Qed.

Lemma load_registrations_run w :
  load_registrations w =
    match registrations_json w with
    | NoFile => (Ok (JList []), w)
    | Corrupt how => (Raise (decode_error how), w)
    | Json v => (Ok v, w)
    end.
Proof.
  unfold load_registrations. rewrite bind_run.
  unfold store_exists, json_load_store.
  destruct (registrations_json w) eqn:Hst; cbn; rewrite ?Hst; reflexivity.
Qed.

Lemma save_registration_run f image_filename n w :
  Py.int (age f) = Some n ->
  save_registration f image_filename w =
    match stored_records w with
    | Some l =>
        (Ok (redirect (url_for "register")),
         add_flashes [success_flash]
           (write_store (JList (l ++ [registration f n image_filename])) w))
    | None => (Raise (store_error w), w)
    end.
Proof.
  intros Hn. unfold save_registration, stored_records, store_error, py_int.
  rewrite bind_run, load_registrations_run, Hn.
  destruct (registrations_json w) as [| |[]]; reflexivity.
Qed.

Lemma store_upload_flashes files l w :
  store_upload secure_filename files (add_flashes l w) =
  add_flashes l (store_upload secure_filename files w).
Proof.
  unfold store_upload. destruct (uploaded_file files) as [fs|]; [|done].
  by destruct (allowed_file (filename fs)).
Qed.

Lemma store_upload_store files w :
  registrations_json (store_upload secure_filename files w) = registrations_json w.
Proof.
  unfold store_upload. destruct (uploaded_file files) as [fs|]; [|done].
  by destruct (allowed_file (filename fs)).
Qed.

Lemma no_field_messages f :
  field_messages f = [] ->
  Py.truthy (name f) = true /\ Py.truthy (country f) = true /\
  Py.truthy (age f) = true /\ age_rejected (age f) = false /\
  Py.truthy (gender f) = true /\ Py.truthy (dob f) = true /\
  (Py.truthy (phone f) && negb (Py.isdigit (phone f))) = false /\
  (Py.truthy (id_type f) && negb (Py.truthy (id_value f))) = false /\
  (String.eqb (medical_concerns f) "Yes" && negb (Py.truthy (medical_details f))) = false.
Proof.
  unfold field_messages, early_messages, late_messages.
  rewrite !app_nil, !msg_if_nil, !negb_false_iff. tauto.
Qed.

(** Every call of [submit_form] ends in one of the four ways. *)
Lemma submit_form_outcome form files w :
  submit_outcome secure_filename form files w (submit_form secure_filename form files w).
Proof.
  unfold submit_form.
  rewrite bind_run, validate_fields_run.
  destruct (age_raises (age (collect form))) eqn:Hraise; [by constructor|].
  rewrite bind_run, validate_file_run, add_flashes_app, <- errors_app, <- has_messages_app.
  fold (error_messages form files).
  destruct (has_messages (error_messages form files)) eqn:Hmsg.
  - rewrite ret_run. constructor; [done|].
    intros Hnil. by rewrite Hnil in Hmsg.
  - apply has_messages_false in Hmsg. rewrite Hmsg.
    change (errors []) with (@nil (string * string)). rewrite add_flashes_nil.
    pose proof Hmsg as Hf. unfold error_messages in Hf.
    apply app_nil in Hf as [Hf _].
    destruct (no_field_messages _ Hf) as (_ & _ & Hage & Hrej & _).
    destruct (accepted_age _ Hage Hraise Hrej) as (_ & Hint & _).
    rewrite (save_registration_run _ _ _ _ Hint).
    unfold stored_records at 1, store_error. rewrite store_upload_store.
    fold (stored_records w). fold (store_error w).
    destruct (stored_records w) as [l|] eqn:Hst.
    + by apply outcome_stored.
    + by apply outcome_unusable.
Qed.

End Facts.

(** ** The messages a call flashes *)

Lemma elem_of_errors c m l : (c, m) ∈ errors l <-> c = "error" /\ m ∈ l.
Proof.
  unfold errors. induction l as [|x l IH]; simpl.
  - rewrite !elem_of_nil. tauto.
  - rewrite !elem_of_cons, IH. split.
    + intros [[= -> ->]|[-> H]]; auto.
    + intros [-> [->|H]]; auto.
Qed.

Lemma elem_of_msg_if m c m' : m ∈ msg_if c m' <-> c = true /\ m = m'.
Proof.
  destruct c; simpl.
  - rewrite list_elem_of_singleton. tauto.
  - rewrite elem_of_nil. split; [tauto | intros [? _]; congruence].
Qed.

Ltac split_messages :=
  unfold error_messages, field_messages, early_messages, late_messages, file_messages,
    id_number_message, age_required_message, age_positive_message, file_type_message;
  rewrite ?elem_of_app, ?elem_of_msg_if.

Lemma age_required_among form files :
  age_required_message ∈ error_messages form files <-> age (collect form) = EmptyString.
Proof.
  rewrite <- truthy_false, <- negb_true_iff.
  split_messages. destruct (uploaded_file files);
    rewrite ?elem_of_msg_if, ?elem_of_nil; simpl; intuition discriminate.
Qed.

Lemma age_positive_among form files :
  age_positive_message ∈ error_messages form files <->
  age_rejected (age (collect form)) = true.
Proof.
  split_messages. destruct (uploaded_file files);
    rewrite ?elem_of_msg_if, ?elem_of_nil; simpl; intuition discriminate.
Qed.

Lemma file_type_among form files :
  file_type_message ∈ error_messages form files <->
  exists fs, uploaded_file files = Some fs /\ allowed_file (filename fs) = false.
Proof.
  split_messages. destruct (uploaded_file files) as [fs|];
    rewrite ?elem_of_msg_if, ?elem_of_nil, ?negb_true_iff; simpl.
  - split.
    + intros H. exists fs. intuition discriminate.
    + intros (fs' & [= <-] & H). tauto.
  - split; [intuition discriminate | intros (fs' & [=] & _)].
Qed.

Section Flashes.

Variable secure_filename : string -> string.

Lemma store_upload_session files w :
  session_flashes (store_upload secure_filename files w) = session_flashes w.
Proof.
  unfold store_upload. destruct (uploaded_file files) as [fs|]; [|done].
  by destruct (allowed_file (filename fs)).
Qed.

Lemma new_flashes_store_upload files l w :
  new_flashes w (store_upload secure_filename files (add_flashes l w)) = l.
Proof.
  unfold new_flashes. rewrite store_upload_session. simpl. by rewrite drop_app_length.
Qed.

(** What a call that does not raise at the age check flashes: the
    messages of the violated rules, or the success notice once the
    record is stored. *)
Lemma submit_form_flashes form files w :
  age_raises (age (collect form)) = false ->
  new_flashes w (submit_form secure_filename form files w).2 =
    errors (error_messages form files) ++
    (if has_messages (error_messages form files) then []
     else match stored_records w with Some _ => [success_flash] | None => [] end).
Proof.
  intros Hno.
  destruct (submit_form_outcome secure_filename form files w)
    as [Hraise|_ Hmsg|_ Hmsg Hst|l _ Hmsg Hst]; simpl.
  - congruence.
  - rewrite new_flashes_store_upload.
    destruct (error_messages form files); [done|]. simpl. by rewrite app_nil_r.
  - rewrite Hmsg, Hst. simpl.
    rewrite <- (add_flashes_nil w) at 2. apply new_flashes_store_upload.
  - rewrite Hmsg, Hst. simpl.
    unfold new_flashes. simpl. rewrite store_upload_session. apply drop_app_length.
Qed.

Lemma submit_form_response form files w :
  age_raises (age (collect form)) = false ->
  error_messages form files <> [] ->
  (submit_form secure_filename form files w).1 = Ok (redirect (url_for "register")).
Proof.
  intros Hno Hne.
  destruct (submit_form_outcome secure_filename form files w)
    as [Hraise|_ Hmsg|_ Hmsg Hst|l _ Hmsg Hst]; simpl; congruence.
Qed.

(** An error message is flashed exactly when its rule is violated. *)
Lemma error_flashed form files w m :
  age_raises (age (collect form)) = false ->
  ("error", m) ∈ new_flashes w (submit_form secure_filename form files w).2 <->
  m ∈ error_messages form files.
Proof.
  intros Hno. rewrite (submit_form_flashes form files w Hno), elem_of_app, elem_of_errors.
  split; [|tauto]. intros [[_ H]|H]; [done|].
  destruct (has_messages (error_messages form files)); [by apply elem_of_nil in H|].
  destruct (stored_records w); [|by apply elem_of_nil in H].
  apply list_elem_of_singleton in H. discriminate.
Qed.

End Flashes.

Lemma required_ok s : negb (Py.truthy s) = false <-> s <> EmptyString.
Proof. by rewrite negb_false_iff, truthy_true. Qed.

Lemma phone_ok p :
  Py.truthy p && negb (Py.isdigit p) = false <-> p = EmptyString \/ Py.isdigit p = true.
Proof.
  destruct p as [|c p]; simpl; [split; auto|].
  rewrite negb_false_iff. split; [auto | by intros [?|?]].
Qed.

Lemma id_ok t v :
  Py.truthy t && negb (Py.truthy v) = false <-> t = EmptyString \/ v <> EmptyString.
Proof.
  destruct t as [|c t], v as [|d v]; simpl; split; auto;
    try (intros [?|?]; congruence); discriminate.
Qed.

Lemma medical_ok m d :
  String.eqb m "Yes" && negb (Py.truthy d) = false <-> (m = "Yes" -> d <> EmptyString).
Proof.
  destruct (String.eqb_spec m "Yes") as [->|Hne]; simpl.
  - rewrite required_ok. tauto.
  - split; [intros _ ?; congruence | done].
Qed.

Lemma file_ok files :
  file_messages files = [] <->
  forall fs, uploaded_file files = Some fs -> allowed_file (filename fs) = true.
Proof.
  unfold file_messages. destruct (uploaded_file files) as [fs|].
  - rewrite msg_if_nil, negb_false_iff. split; [by intros ? ? [= <-] | auto].
  - split; [by intros _ ? [=] | done].
Qed.

(** Meeting every rule is the same as: the age check does not raise and
    no message is due. *)
Lemma acceptable_iff form files :
  acceptable form files <->
  age_raises (age (collect form)) = false /\ error_messages form files = [].
Proof.
  unfold acceptable, rules_besides_age, error_messages, field_messages, early_messages,
    late_messages.
  cbv zeta.
  rewrite !app_nil, !msg_if_nil, file_ok, phone_ok, id_ok, medical_ok, !required_ok.
  pose proof (age_accepted_iff (age (collect form))) as Hage.
  rewrite truthy_true in Hage. tauto.
Qed.

(** ** The claims *)

Section Claims.

Variable secure_filename : string -> string.

Lemma all_chars_empty_false p s : Py.all_chars p s = false -> Py.truthy s = true.
Proof. by destruct s. Qed.

(** A violated rule leaves the call no way to go through: it raises at
    the age check or it has a message to flash. *)
Lemma violation_has_message form files :
  rule_violated form files ->
  age_raises (age (collect form)) = false ->
  error_messages form files <> [].
Proof.
  intros Hv Hraise Hnil. unfold error_messages in Hnil.
  apply app_nil in Hnil as [Hf Hfile].
  destruct (no_field_messages _ Hf)
    as (Hname & Hcountry & Hage & Hrej & Hgender & Hdob & Hphone & Hid & Hmed).
  destruct (accepted_age _ Hage Hraise Hrej) as (Hdec & Hint & Hpos).
  destruct Hv as [H|H|H|H|H|Hne [H|H]|n H Hn|H|Hne H|Hyes H|fs Hfs H].
  - by rewrite H in Hname.
  - by rewrite H in Hcountry.
  - by rewrite H in Hage.
  - by rewrite H in Hgender.
  - by rewrite H in Hdob.
  - by rewrite (isdecimal_isdigit _ Hdec) in H.
  - by rewrite Hint in H.
  - assert (n = Py.decimal_value (age (collect form))) by congruence. lia.
  - rewrite (all_chars_empty_false _ _ H) in Hphone. unfold Py.isdigit in Hphone.
    rewrite H, andb_false_r in Hphone. done.
  - apply truthy_true in Hne. rewrite Hne, H in Hid. done.
  - rewrite Hyes, H in Hmed. done.
  - unfold file_messages in Hfile. rewrite Hfs in Hfile.
    apply msg_if_nil in Hfile. rewrite H in Hfile. done.
Qed.

(** C1: a submission that violates a validation rule leaves the
    persisted registration store exactly as it was: nothing is appended
    and the store file is not written. *)
Theorem C1_violation_leaves_store form files w :
  rule_violated form files ->
  registrations_json (submit_form secure_filename form files w).2 = registrations_json w.
Proof.
  intros Hv.
  destruct (submit_form_outcome secure_filename form files w)
    as [Hraise|Hraise Hmsg|Hraise Hmsg _|l Hraise Hmsg _]; simpl.
  - reflexivity.
  - by rewrite store_upload_store.
  - by destruct (violation_has_message form files Hv Hraise).
  - by destruct (violation_has_message form files Hv Hraise).
Qed.

(** C2: the file of a submission is written to the upload folder although
    a field rule is violated: with the name missing and [photo.png]
    attached, the upload folder, empty before, holds the file after the
    call, and the submission is turned down. *)
Theorem C2_file_saved_despite_violation :
  let r := submit_form secure_filename (delete "name" amina) photo empty_world in
  rule_violated (delete "name" amina) photo /\
  rejected empty_world r /\
  upload_files empty_world = ∅ /\
  upload_files r.2 =
    {[ path_join UPLOAD_FOLDER (secure_filename "photo.png") := "PNG data" ]}.
Proof.
  intros r. split; [by apply missing_name|].
  split; [|split; reflexivity].
  split; [reflexivity|].
  exists "Full Name is required". apply list_elem_of_In. vm_compute. by left.
Qed.

Lemma int_defined_no_raise a :
  (Py.isdigit a = true -> is_Some (Py.int a)) -> age_raises a = false.
Proof.
  intros H. unfold age_raises. destruct (Py.isdigit a) eqn:Hd; [|done].
  by destruct (H eq_refl) as [n ->].
Qed.

Lemma age_error_iff form files w :
  age_raises (age (collect form)) = false ->
  age_error_flashed w (submit_form secure_filename form files w).2 <->
  age (collect form) = EmptyString \/ age_rejected (age (collect form)) = true.
Proof.
  intros Hno. unfold age_error_flashed.
  by rewrite !(error_flashed secure_filename form files w _ Hno),
    age_required_among, age_positive_among.
Qed.

Lemma message_rejects form files w m :
  age_raises (age (collect form)) = false ->
  m ∈ error_messages form files ->
  rejected w (submit_form secure_filename form files w).
Proof.
  intros Hno Hm. split.
  - apply submit_form_response; [done|]. intros Hnil. rewrite Hnil in Hm.
    by apply elem_of_nil in Hm.
  - exists m. by apply error_flashed.
Qed.

(** What a successful call has stored. *)
Lemma successful_stored form files w :
  successful w (submit_form secure_filename form files w) ->
  age_raises (age (collect form)) = false /\
  error_messages form files = [] /\
  exists l, stored_records w = Some l /\
    registrations_json (submit_form secure_filename form files w).2 =
      Json (JList (l ++ [built_record secure_filename form files])).
Proof.
  intros [Hresp Hflash].
  destruct (submit_form_outcome secure_filename form files w)
    as [Hraise|Hraise Hmsg|Hraise Hmsg Hst|l Hraise Hmsg Hst]; simpl in *.
  - discriminate.
  - rewrite new_flashes_store_upload in Hflash.
    apply elem_of_errors in Hflash as [? _]. discriminate.
  - discriminate.
  - repeat split; [done..|]. by exists l.
Qed.

Lemma successful_age form files w :
  successful w (submit_form secure_filename form files w) ->
  Py.isdecimal (age (collect form)) = true /\
  Py.int (age (collect form)) = Some (Py.decimal_value (age (collect form))) /\
  (0 < Py.decimal_value (age (collect form)))%Z.
Proof.
  intros (Hno & Hnil & _)%successful_stored.
  unfold error_messages in Hnil. apply app_nil in Hnil as [Hf _].
  destruct (no_field_messages _ Hf) as (_ & _ & Hage & Hrej & _).
  by apply accepted_age.
Qed.

(** C3, as amended: unless [int] raises on a trimmed age made of digit
    characters, the submission is turned down with an age error exactly
    when the trimmed age is empty, has a character [str.isdigit] does not
    accept, or is read by [int] as a value of zero or less; an age of
    digit characters that [int] reads as a positive integer draws no age
    error, and a successful submission persists that integer as [age]. *)
Theorem C3_age_error_exactly form files w :
  let a := age (collect form) in
  let r := submit_form secure_filename form files w in
  (Py.isdigit a = true -> is_Some (Py.int a)) ->
  (rejected w r /\ age_error_flashed w r.2 <->
   a = EmptyString \/ Py.isdigit a = false \/
   exists n, Py.int a = Some n /\ (n <= 0)%Z) /\
  (forall n, Py.isdigit a = true -> Py.int a = Some n -> (0 < n)%Z ->
   ~ age_error_flashed w r.2 /\
   (successful w r ->
    exists l v, registrations_json r.2 = Json (JList (l ++ [v])) /\
                obj_get "age" v = Some (JInt n))).
Proof.
  intros a r Hint.
  pose proof (int_defined_no_raise a Hint) as Hno.
  pose proof (age_error_iff form files w Hno) as Herr. fold a r in Herr.
  pose proof (age_rejected_iff a) as Hrej.
  assert (Hempty : a = EmptyString -> Py.isdigit a = false) by by intros ->.
  split; [split|].
  - intros [_ H]. apply Herr in H as [H|H]; [by left|]. apply Hrej in H. tauto.
  - intros H.
    assert (Hflash : age_error_flashed w r.2).
    { apply Herr. destruct (decide (a = EmptyString)) as [|Hne]; [by left|].
      right. apply Hrej. split; [done|]. tauto. }
    split; [|done].
    destruct Hflash as [Hf|Hf];
      apply (error_flashed secure_filename form files w _ Hno) in Hf;
      by eapply message_rejects.
  - intros n Hd Hn Hpos. split.
    + intros H. apply Herr in H as [H|H].
      * apply Hempty in H. congruence.
      * apply Hrej in H as [_ [H|(m & Hm & Hle)]]; [congruence|].
        assert (m = n) by congruence. lia.
    + intros Hok. pose proof (successful_age _ _ _ Hok) as (_ & Hdv & _).
      apply successful_stored in Hok as (_ & _ & l & _ & Hst).
      exists l, (built_record secure_filename form files). split; [done|].
      unfold a in Hn. rewrite Hdv in Hn. injection Hn as <-. reflexivity.
Qed.

(** C4: the age check raises on an age of superscript digits, and the
    rules after it are never looked at: with the age [U+00B2] and the
    gender missing the call raises [ValueError] with nothing flashed. *)
Theorem C4_age_check_raises :
  let form := <["age" := superscript_two]> (delete "gender" amina) in
  let r := submit_form secure_filename form ∅ empty_world in
  gender (collect form) = EmptyString /\
  Py.isdigit (age (collect form)) = true /\
  Py.int (age (collect form)) = None /\
  r.1 = Raise ValueError /\
  new_flashes empty_world r.2 = [].
Proof. repeat split; reflexivity. Qed.

(** Apart from that, every violated rule has its message flashed, in the
    order of the rules, and the submission is turned down. *)
Lemma violations_all_flashed form files w :
  age_raises (age (collect form)) = false ->
  error_messages form files <> [] ->
  rejected w (submit_form secure_filename form files w) /\
  new_flashes w (submit_form secure_filename form files w).2 =
    errors (error_messages form files).
Proof.
  intros Hno Hne. split.
  - destruct (error_messages form files) as [|m l] eqn:Hm; [done|].
    apply (message_rejects form files w m Hno). rewrite Hm. by left.
  - rewrite submit_form_flashes by done.
    destruct (error_messages form files); [done|]. simpl. by rewrite app_nil_r.
Qed.

Lemma contains_rsplit_last c s :
  Py.contains c s = true <-> is_Some (Py.rsplit_last c s).
Proof.
  induction s as [|a s IH]; simpl.
  - split; [done | by intros [? ?]].
  - rewrite orb_true_iff, IH. destruct (Py.rsplit_last c s) as [[h t]|].
    + split; [by eexists | right; by eexists].
    + destruct (Ascii.eqb a c); split; try (by eexists); try (by left);
        try (by intros [?|[? ?]]); by intros [? ?].
Qed.

(** [allowed_file] looks at the extension, lower-cased. *)
Lemma allowed_file_extension s :
  allowed_file s = true <->
  exists ext, extension s = Some ext /\ Py.lower ext ∈ ALLOWED_EXTENSIONS.
Proof.
  unfold allowed_file, extension, Py.rsplit1.
  rewrite andb_true_iff, contains_rsplit_last.
  destruct (Py.rsplit_last "." s) as [[h t]|]; simpl.
  - rewrite bool_decide_eq_true. split.
    + intros [_ H]. by exists t.
    + intros (ext & [= <-] & H). split; [by eexists | done].
  - split; [by intros [[? ?] _] | by intros (? & ? & _)].
Qed.

(** A file with no allowed extension is never written, and the
    submission is turned down with the file-type message unless the age
    check raises first. *)
Lemma disallowed_file_rejected form files w fs :
  uploaded_file files = Some fs -> allowed_file (filename fs) = false ->
  upload_files (submit_form secure_filename form files w).2 = upload_files w /\
  (age_raises (age (collect form)) = false ->
   rejected w (submit_form secure_filename form files w) /\
   ("error", file_type_message) ∈
     new_flashes w (submit_form secure_filename form files w).2).
Proof.
  intros Hfs Hext.
  assert (Hmsg : file_type_message ∈ error_messages form files).
  { apply file_type_among. by exists fs. }
  assert (Hup : forall w', store_upload secure_filename files w' = w').
  { intros w'. unfold store_upload. by rewrite Hfs, Hext. }
  split.
  - destruct (submit_form_outcome secure_filename form files w)
      as [Hraise|Hraise Hne|Hraise Hnil _|l Hraise Hnil _]; simpl;
      rewrite ?Hup; try reflexivity;
      rewrite Hnil in Hmsg; by apply elem_of_nil in Hmsg.
  - intros Hno. split; [by eapply message_rejects|]. by apply error_flashed.
Qed.

(** C5: with a file of a disallowed extension attached, the age check
    still raises on an age of superscript digits before the file is
    looked at: the call raises [ValueError] and no file-type message is
    flashed. *)
Theorem C5_disallowed_file_age_raises :
  let form := <["age" := superscript_two]> amina in
  let r := submit_form secure_filename form notes_exe empty_world in
  (exists fs, uploaded_file notes_exe = Some fs /\ extension (filename fs) = Some "exe") /\
  r.1 = Raise ValueError /\
  new_flashes empty_world r.2 = [] /\
  upload_files r.2 = ∅.
Proof.
  repeat split; try reflexivity. by eexists.
Qed.

Lemma lookup_map {A B : Type} (f : A -> B) (l : list A) i :
  map f l !! i = f <$> (l !! i).
Proof. revert i. induction l as [|x l IH]; intros [|i]; simpl; auto. Qed.

Lemma view_registrations_run w l :
  stored_records w = Some l ->
  view_registrations w = (Ok (render_template "view.html" (Some (JList l))), w).
Proof.
  unfold view_registrations, stored_records. rewrite bind_run, load_registrations_run.
  destruct (registrations_json w) as [| |[]]; intros [= <-]; reflexivity.
Qed.

Lemma submit_all_stored subs : forall w l,
  stored_records w = Some l ->
  all_successful secure_filename subs w ->
  stored_records (submit_all secure_filename subs w) =
    Some (l ++ map (fun s => built_record secure_filename s.1 s.2) subs).
Proof.
  induction subs as [|[form files] subs IH]; intros w l Hst Hall; simpl.
  - by rewrite app_nil_r.
  - destruct Hall as [Hok Hrest].
    apply successful_stored in Hok as (_ & _ & l' & Hst' & Hnew).
    assert (l' = l) as -> by congruence.
    rewrite (IH _ (l ++ [built_record secure_filename form files])); [|by unfold stored_records; rewrite Hnew|done].
    by rewrite <- app_assoc.
Qed.

Lemma stored_is_successful form files w l :
  successful w
    (Ok (redirect (url_for "register")),
     add_flashes [success_flash]
       (write_store (JList (l ++ [built_record secure_filename form files]))
          (store_upload secure_filename files w))).
Proof.
  split; [reflexivity|]. unfold new_flashes. simpl.
  rewrite store_upload_session, drop_app_length. by left.
Qed.

(** A submission goes through exactly when it meets every rule and the
    store file is absent or holds a list. *)
Lemma success_criterion form files w :
  successful w (submit_form secure_filename form files w) <->
  acceptable form files /\ is_Some (stored_records w).
Proof.
  rewrite acceptable_iff. split.
  - intros (Hno & Hnil & l & Hst & _)%successful_stored. by rewrite Hst.
  - intros [[Hno Hnil] [l Hl]].
    destruct (submit_form_outcome secure_filename form files w)
      as [Hraise|_ Hmsg|_ _ Hst|l' _ _ _]; try congruence.
    apply stored_is_successful.
Qed.

(** The record a successful submission appends is the one the data model
    expects. *)
Lemma built_record_expected form files w :
  successful w (submit_form secure_filename form files w) ->
  exists n, Py.int (Py.strip (form_get form "age" EmptyString)) = Some n /\
            (0 < n)%Z /\
            built_record secure_filename form files =
              expected_record secure_filename form files n.
Proof.
  intros Hok. destruct (successful_age form files w Hok) as (_ & Hint & Hpos).
  apply successful_stored in Hok as (_ & Hnil & _).
  exists (Py.decimal_value (age (collect form))). split; [exact Hint|]. split; [done|].
  unfold error_messages in Hnil. apply app_nil in Hnil as [_ Hfile].
  pose proof (proj1 (file_ok files) Hfile) as Hext.
  unfold built_record, registration, expected_record, recorded_filename.
  destruct (uploaded_file files) as [fs|]; [|reflexivity].
  by rewrite (Hext fs eq_refl).
Qed.

Lemma all_successful_lookup subs : forall w i form files,
  all_successful secure_filename subs w ->
  subs !! i = Some (form, files) ->
  exists w', successful w' (submit_form secure_filename form files w').
Proof.
  induction subs as [|[form' files'] subs IH]; intros w [|i] form files Hall Hi;
    try done.
  - injection Hi as -> ->. destruct Hall as [Hok _]. by exists w.
  - destruct Hall as [_ Hrest]. by apply (IH _ i _ _ Hrest).
Qed.

(** C6: from an empty or absent store, N successful submissions followed
    by the listing hand the template exactly N records, in the order the
    submissions were made; the i-th is the record of the i-th submission:
    its form values, trimmed where the form is trimmed, its age as the
    integer [int] reads from the trimmed age, and the secured name of its
    file or null. *)
Theorem C6_round_trip subs w :
  stored_records w = Some [] ->
  all_successful secure_filename subs w ->
  exists records,
    (view_registrations (submit_all secure_filename subs w)).1 =
      Ok (render_template "view.html" (Some (JList records))) /\
    length records = length subs /\
    (forall i form files,
       subs !! i = Some (form, files) ->
       exists n,
         Py.int (Py.strip (form_get form "age" EmptyString)) = Some n /\
         records !! i = Some (expected_record secure_filename form files n)).
Proof.
  intros Hst Hall.
  exists (map (fun s => built_record secure_filename s.1 s.2) subs).
  split; [|split].
  - erewrite view_registrations_run; [reflexivity|].
    by rewrite (submit_all_stored subs w [] Hst Hall).
  - apply length_map.
  - intros i form files Hi.
    destruct (all_successful_lookup subs w i form files Hall Hi) as [w' Hok].
    destruct (built_record_expected form files w' Hok) as (n & Hn & _ & Heq).
    exists n. split; [done|]. rewrite lookup_map, Hi. simpl. by rewrite Heq.
Qed.

(** A request leaves the store file alone, or it is a successful
    submission and appends its record. *)
Lemma handle_store req w :
  registrations_json (handle secure_filename req w).2 = registrations_json w \/
  exists form files l,
    req = PostSubmit form files /\
    successful w (handle secure_filename req w) /\
    stored_records w = Some l /\
    registrations_json (handle secure_filename req w).2 =
      Json (JList (l ++ [built_record secure_filename form files])).
Proof.
  destruct req as [| |form files|]; simpl; try (by left).
  - pose proof (stored_is_successful form files w) as Hgood.
    destruct (submit_form_outcome secure_filename form files w)
      as [Hraise|Hraise Hmsg|Hraise Hmsg Hst|l Hraise Hmsg Hst]; simpl.
    + by left.
    + left. by rewrite store_upload_store.
    + left. by rewrite store_upload_store.
    + right. by exists form, files, l.
  - left. unfold view_registrations. rewrite bind_run, load_registrations_run.
    destruct (registrations_json w) eqn:Hst; simpl; by rewrite ?Hst.
Qed.

(** C7: a successful submission appends exactly one record, the record of
    the submission, at the end of the persisted sequence and leaves the
    records before it as they were, value and position; and whatever the
    request, the store file is left alone or one record is appended by a
    successful submission: nothing updates or deletes a record. *)
Theorem C7_append_only req w :
  let r := handle secure_filename req w in
  (forall form files,
     req = PostSubmit form files -> successful w r ->
     exists l n,
       stored_records w = Some l /\
       Py.int (Py.strip (form_get form "age" EmptyString)) = Some n /\
       stored_records r.2 =
         Some (l ++ [expected_record secure_filename form files n])) /\
  (registrations_json r.2 = registrations_json w \/
   exists form files l v,
     req = PostSubmit form files /\ successful w r /\
     stored_records w = Some l /\
     stored_records r.2 = Some (l ++ [v])).
Proof.
  intros r. subst r. split.
  - intros form files -> Hok. simpl in *.
    destruct (built_record_expected form files w Hok) as (n & Hn & _ & Heq).
    apply successful_stored in Hok as (_ & _ & l & Hst & Hnew).
    exists l, n. split; [done|]. split; [done|].
    unfold stored_records. by rewrite Hnew, Heq.
  - destruct (handle_store req w) as [H|(form & files & l & Hreq & Hok & Hst & Hnew)].
    + by left.
    + right. exists form, files, l, (built_record secure_filename form files).
      repeat split; try done; try apply Hok.
      unfold stored_records. by rewrite Hnew.
Qed.

Lemma built_record_invariant form files w :
  successful w (submit_form secure_filename form files w) ->
  record_invariant (built_record secure_filename form files).
Proof.
  intros Hok. destruct (successful_age form files w Hok) as (_ & _ & Hpos).
  apply successful_stored in Hok as (_ & Hnil & _).
  unfold error_messages in Hnil. apply app_nil in Hnil as [Hf _].
  destruct (no_field_messages _ Hf)
    as (Hname & Hcountry & _ & _ & Hgender & Hdob & _ & Hid & Hmed).
  unfold record_invariant, nonempty_field.
  repeat split.
  - eexists. split; [reflexivity | by apply truthy_true].
  - eexists. split; [reflexivity | by apply truthy_true].
  - eexists. split; [reflexivity | by apply truthy_true].
  - eexists. split; [reflexivity | by apply truthy_true].
  - eexists. split; [reflexivity | done].
  - intros t Ht Hne.
    change (Some (id_type (collect form)) = Some t) in Ht. injection Ht as <-.
    assert (Ht : Py.truthy (id_type (collect form)) = true) by by apply truthy_true.
    rewrite Ht in Hid. simpl in Hid.
    apply negb_false_iff in Hid. eexists. split; [reflexivity | by apply truthy_true].
  - intros Hyes.
    change (Some (medical_concerns (collect form)) = Some "Yes") in Hyes.
    assert (Hy : medical_concerns (collect form) = "Yes") by by injection Hyes.
    rewrite Hy in Hmed. simpl in Hmed.
    apply negb_false_iff in Hmed. eexists. split; [reflexivity | by apply truthy_true].
Qed.

Lemma handle_invariant req w l :
  stored_records w = Some l -> Forall record_invariant l ->
  exists l', stored_records (handle secure_filename req w).2 = Some l' /\
             Forall record_invariant l'.
Proof.
  intros Hst Hinv.
  destruct (handle_store req w) as [H|(form & files & l0 & -> & Hok & Hst0 & Hnew)].
  - exists l. split; [|done]. unfold stored_records in *. by rewrite H.
  - assert (l0 = l) as -> by congruence.
    exists (l ++ [built_record secure_filename form files]). split.
    + unfold stored_records. by rewrite Hnew.
    + apply Forall_app. split; [done|]. apply Forall_singleton.
      by eapply built_record_invariant.
Qed.

(** C8: the invariant of the store holds under every operation: when the
    persisted records have a non-empty name, country, gender and date of
    birth, a positive integer age, an id value whenever the id type is
    set and medical details whenever the medical concerns are [Yes],
    they still have after any sequence of requests; so do all records
    persisted from the empty store on. *)
Theorem C8_store_invariant reqs w l :
  stored_records w = Some l -> Forall record_invariant l ->
  exists l', stored_records (handle_all secure_filename reqs w) = Some l' /\
             Forall record_invariant l'.
Proof.
  revert w l. induction reqs as [|req reqs IH]; intros w l Hst Hinv; simpl.
  - by exists l.
  - destruct (handle_invariant req w l Hst Hinv) as (l' & Hst' & Hinv').
    by apply (IH _ l').
Qed.

(** C10: a persisted record has the fifteen keys; a text field the
    submission leaves out is stored as the empty string; and
    [image_filename] is null exactly when no file with an allowed
    extension was uploaded. *)
Theorem C10_record_shape form files w :
  let r := submit_form secure_filename form files w in
  successful w r ->
  exists l v,
    registrations_json r.2 = Json (JList (l ++ [v])) /\
    obj_keys v = registration_keys /\
    length (obj_keys v) = 15%nat /\
    (forall k, k ∈ optional_fields -> form !! k = None ->
               obj_get k v = Some (JStr EmptyString)) /\
    (obj_get "image_filename" v = Some JNull <->
     ~ exists fs, uploaded_file files = Some fs /\ allowed_file (filename fs) = true).
Proof.
  intros r Hok. subst r.
  apply successful_stored in Hok as (_ & _ & l & _ & Hnew).
  exists l, (built_record secure_filename form files).
  split; [done|]. split; [reflexivity|]. split; [reflexivity|]. split.
  - intros k Hk Hnone. unfold optional_fields in Hk.
    repeat (apply elem_of_cons in Hk as [->|Hk]);
      try (by apply elem_of_nil in Hk);
      unfold built_record, collect, form_get; cbn; by rewrite Hnone.
  - change (obj_get "image_filename" (built_record secure_filename form files))
      with (Some (match recorded_filename secure_filename files with
                  | Some s => JStr s
                  | None => JNull
                  end)).
    unfold recorded_filename.
    destruct (uploaded_file files) as [fs|]; [destruct (allowed_file (filename fs)) eqn:Hext|].
    + split; [done|]. intros H. destruct H. by exists fs.
    + split; [|done]. intros _ (fs' & [= <-] & H). congruence.
    + split; [|done]. by intros _ (fs' & [=] & _).
Qed.

Lemma raising_age form files w :
  age_raises (age (collect form)) = true ->
  (submit_form secure_filename form files w).1 = Raise ValueError.
Proof.
  intros Hr.
  destruct (submit_form_outcome secure_filename form files w)
    as [_|Hraise _|Hraise _ _|l Hraise _ _]; simpl; congruence.
Qed.

(** C9, as amended: the trimmed age strings that pass validation, with
    which a submission that meets the other rules goes through, are
    exactly the strings of digit characters that [int] reads as an
    integer greater than zero; the trimmed ages [+5] and [5.0] are turned
    down with the age error; an age field [ 5] is trimmed to [5] first
    and passes. *)
Theorem C9_ages_passing :
  (forall form files w,
     rules_besides_age form files -> is_Some (stored_records w) ->
     (successful w (submit_form secure_filename form files w) <->
      Py.isdigit (age (collect form)) = true /\
      exists n, Py.int (age (collect form)) = Some n /\ (0 < n)%Z)) /\
  (forall form files w,
     age (collect form) = "+5" \/ age (collect form) = "5.0" ->
     rejected w (submit_form secure_filename form files w) /\
     ("error", age_positive_message) ∈
       new_flashes w (submit_form secure_filename form files w).2) /\
  (forall form files w,
     form !! "age" = Some " 5" ->
     age (collect form) = "5" /\
     ~ age_error_flashed w (submit_form secure_filename form files w).2 /\
     (rules_besides_age form files -> is_Some (stored_records w) ->
      successful w (submit_form secure_filename form files w))).
Proof.
  split; [|split].
  - intros form files w Hrules Hst. rewrite success_criterion.
    unfold acceptable, age_accepted. tauto.
  - intros form files w Hage.
    assert (Hno : age_raises (age (collect form)) = false)
      by (destruct Hage as [-> | ->]; reflexivity).
    assert (Hm : age_positive_message ∈ error_messages form files)
      by (apply age_positive_among; destruct Hage as [-> | ->]; reflexivity).
    split; [by eapply message_rejects | by apply error_flashed].
  - intros form files w Hform.
    assert (Hage : age (collect form) = "5")
      by (unfold collect, form_get; cbn; by rewrite Hform).
    split; [done|]. split.
    + rewrite age_error_iff by (by rewrite Hage). rewrite Hage. by intros [?|?].
    + intros Hrules Hst. apply success_criterion. split; [|done].
      split; [|done]. rewrite Hage. split; [reflexivity|].
      exists 5%Z. split; [reflexivity | lia].
Qed.

End Claims.

(** C1, at the age [-5] of the specification's scenario. *)
Lemma C1_witness :
  registrations_json
    (submit_form keep_filename (<["age" := "-5"]> amina) ∅ empty_world).2 =
  registrations_json empty_world.
Proof.
  apply (C1_violation_leaves_store keep_filename (<["age" := "-5"]> amina) ∅ empty_world).
  apply age_non_positive with (n := (-5)%Z); [reflexivity | lia].
Defined.

(** C3, as stated, fails at the age [+5]: it parses as the positive integer
    5 and the submission is turned down with the age error. *)
Lemma C3_counterexample :
  Py.int (age (collect (<["age" := "+5"]> amina))) = Some 5%Z /\
  rejected empty_world (submit_form keep_filename (<["age" := "+5"]> amina) ∅ empty_world) /\
  age_error_flashed empty_world
    (submit_form keep_filename (<["age" := "+5"]> amina) ∅ empty_world).2.
Proof.
  split; [reflexivity|]. split.
  - split; [reflexivity|]. exists age_positive_message.
    apply list_elem_of_In. vm_compute. by left.
  - right. apply list_elem_of_In. vm_compute. by left.
Qed.

(** C3, as amended, at the age [34] of the specification's scenario and at
    the age [+5]. *)
Lemma C3_witness :
  (~ age_error_flashed empty_world (submit_form keep_filename amina ∅ empty_world).2) /\
  age_error_flashed empty_world
    (submit_form keep_filename (<["age" := "+5"]> amina) ∅ empty_world).2.
Proof.
  split.
  - refine (proj1 (proj2 (C3_age_error_exactly keep_filename amina ∅ empty_world _)
                     34%Z _ _ _));
      [intros _; by eexists | reflexivity | reflexivity | reflexivity].
  - refine (proj2 (proj2 (proj1
      (C3_age_error_exactly keep_filename (<["age" := "+5"]> amina) ∅ empty_world _)) _));
      [intros H; vm_compute in H; discriminate | right; left; reflexivity].
Defined.

(** C6, on two submissions, the second with a photo. *)
Lemma C6_witness :
  exists records,
    (view_registrations
       (submit_all keep_filename [(amina, ∅); (<["name" := " Omar "]> amina, photo)]
          empty_world)).1 =
      Ok (render_template "view.html" (Some (JList records))) /\
    length records = 2%nat /\
    records !! 1%nat =
      Some (expected_record keep_filename (<["name" := " Omar "]> amina) photo 34).
Proof.
  destruct (C6_round_trip keep_filename
              [(amina, ∅); (<["name" := " Omar "]> amina, photo)] empty_world)
    as (records & Hview & Hlen & Hrec).
  - reflexivity.
  - repeat split; apply list_elem_of_In; vm_compute; by left.
  - exists records. split; [exact Hview|]. split; [exact Hlen|].
    destruct (Hrec 1%nat (<["name" := " Omar "]> amina) photo eq_refl) as (n & Hn & Hr).
    assert (n = 34%Z) as -> by (vm_compute in Hn; congruence). exact Hr.
Defined.

(** C7, on a store that holds one record already. *)
Lemma C7_witness :
  stored_records
    (handle keep_filename (PostSubmit amina photo)
       (World [] (Json (JList [JObj [("name", JStr "Older")]])) ∅)).2 =
  Some ([JObj [("name", JStr "Older")]] ++ [expected_record keep_filename amina photo 34]).
Proof.
  destruct (proj1 (C7_append_only keep_filename (PostSubmit amina photo)
                     (World [] (Json (JList [JObj [("name", JStr "Older")]])) ∅))
              amina photo eq_refl) as (l & n & Hl & Hn & Hst).
  - split; [reflexivity|]. apply list_elem_of_In. vm_compute. by left.
  - assert (n = 34%Z) as -> by (vm_compute in Hn; congruence).
    injection Hl as <-. exact Hst.
Defined.

(** C8, from the empty store, over a successful and a failed submission
    and a listing. *)
Lemma C8_witness :
  exists l',
    stored_records
      (handle_all keep_filename
         [PostSubmit amina photo; PostSubmit (delete "dob" amina) ∅; GetView]
         empty_world) = Some l' /\
    Forall record_invariant l'.
Proof.
  apply (C8_store_invariant keep_filename
           [PostSubmit amina photo; PostSubmit (delete "dob" amina) ∅; GetView]
           empty_world []).
  - reflexivity.
  - constructor.
Defined.

(** C9, as stated, fails at the age field [ 5]: it parses as the positive
    integer 5, and the submission goes through with no age error and the
    age 5 persisted. *)
Lemma C9_counterexample :
  Py.int " 5" = Some 5%Z /\
  successful empty_world (submit_form keep_filename (<["age" := " 5"]> amina) ∅ empty_world) /\
  ~ age_error_flashed empty_world
      (submit_form keep_filename (<["age" := " 5"]> amina) ∅ empty_world).2 /\
  exists v,
    registrations_json (submit_form keep_filename (<["age" := " 5"]> amina) ∅ empty_world).2 =
      Json (JList [v]) /\
    obj_get "age" v = Some (JInt 5).
Proof.
  split; [reflexivity|]. split; [|split].
  - split; [reflexivity|]. apply list_elem_of_In. vm_compute. by left.
  - intros [H|H]; apply list_elem_of_In in H; vm_compute in H;
      destruct H as [H|[]]; discriminate.
  - eexists. split; [vm_compute; reflexivity | reflexivity].
Qed.

(** C10, on a submission without a file. *)
Lemma C10_witness :
  exists l v,
    registrations_json (submit_form keep_filename amina ∅ empty_world).2 =
      Json (JList (l ++ [v])) /\
    obj_keys v = registration_keys /\
    obj_get "phone" v = Some (JStr EmptyString) /\
    obj_get "image_filename" v = Some JNull.
Proof.
  destruct (C10_record_shape keep_filename amina ∅ empty_world)
    as (l & v & Hst & Hkeys & _ & Hopt & Himg).
  - split; [reflexivity|]. apply list_elem_of_In. vm_compute. by left.
  - exists l, v. split; [done|]. split; [done|]. split.
    + apply Hopt; [|reflexivity]. apply list_elem_of_In. vm_compute. by left.
    + apply Himg. intros (fs & Hfs & _). discriminate.
Defined.

(** ** The scenarios of the specification *)

(** Amina's submission goes through: age 34 as an integer, no file
    reference. *)
Example scenario_amina :
  let r := submit_form keep_filename amina ∅ empty_world in
  r.1 = Ok (redirect "/register") /\
  session_flashes r.2 = [success_flash] /\
  exists v, registrations_json r.2 = Json (JList [v]) /\
            obj_get "age" v = Some (JInt 34) /\
            obj_get "image_filename" v = Some JNull.
Proof.
  repeat split. eexists. split; [vm_compute; reflexivity|]. split; reflexivity.
Qed.

(** The same with the age [-5]: the age error, and the store still
    absent. *)
Example scenario_negative_age :
  let r := submit_form keep_filename (<["age" := "-5"]> amina) ∅ empty_world in
  r.1 = Ok (redirect "/register") /\
  session_flashes r.2 = [("error", age_positive_message)] /\
  registrations_json r.2 = NoFile.
Proof. repeat split. Qed.

(** An id type without an id value: the message names the id type. *)
Example scenario_passport :
  let r := submit_form keep_filename (<["id_type" := "Passport"]> amina) ∅ empty_world in
  session_flashes r.2 = [("error", "Please enter your Passport number")] /\
  registrations_json r.2 = NoFile.
Proof. repeat split. Qed.

(** Name and country both missing: both messages, in the order of the
    rules. *)
Example scenario_two_messages :
  let r := submit_form keep_filename (delete "name" (delete "country" amina)) ∅ empty_world in
  session_flashes r.2 =
    [("error", "Full Name is required"); ("error", "Country of Origin is required")].
Proof. reflexivity. Qed.

(** An upper-case extension is allowed; a name without a dot is not. *)
Example scenario_extensions :
  allowed_file "scan.JPEG" = true /\ allowed_file "png" = false /\
  allowed_file "archive.tar.gz" = false /\ allowed_file ".pdf" = true.
Proof. repeat split. Qed.

(** ** Further properties of the code *)

(** *** The string primitives the views rely on *)

Lemma contains_false_rsplit c s : Py.contains c s = false -> Py.rsplit_last c s = None.
Proof.
  intros H. destruct (Py.rsplit_last c s) eqn:Hr; [|done].
  assert (Py.contains c s = true) by (apply contains_rsplit_last; by eexists).
  congruence.
Qed.

Lemma rsplit_last_app c stem ext :
  Py.contains c ext = false ->
  Py.rsplit_last c (String.append stem (String c ext)) = Some (stem, ext).
Proof.
  intros H. induction stem as [|a stem IH]; simpl.
  - by rewrite (contains_false_rsplit c ext H), Ascii.eqb_refl.
  - by rewrite IH.
Qed.

Lemma contains_app c s t :
  Py.contains c (String.append s t) = Py.contains c s || Py.contains c t.
Proof. induction s as [|a s IH]; simpl; [done|]. by rewrite IH, orb_assoc. Qed.

Lemma allowed_extensions x :
  x ∈ ALLOWED_EXTENSIONS <-> x = "png" \/ x = "jpg" \/ x = "jpeg" \/ x = "pdf".
Proof.
  unfold ALLOWED_EXTENSIONS. rewrite !elem_of_union, !elem_of_singleton. tauto.
Qed.

Lemma lstrip_by_app p s t :
  Py.lstrip_by p (String.append s t) =
    match Py.lstrip_by p s with
    | EmptyString => Py.lstrip_by p t
    | r => String.append r t
    end.
Proof.
  induction s as [|c s IH]; simpl; [done|]. destruct (p c); [done|]. reflexivity.
Qed.

Lemma rstrip_by_all p s : Py.all_chars p s = true -> Py.rstrip_by p s = EmptyString.
Proof.
  induction s as [|c s IH]; simpl; [done|].
  intros [-> Hs]%andb_true_iff. by rewrite (IH Hs).
Qed.

Lemma lstrip_by_all p s : Py.all_chars p s = true -> Py.lstrip_by p s = EmptyString.
Proof.
  induction s as [|c s IH]; simpl; [done|].
  intros [-> Hs]%andb_true_iff. by apply IH.
Qed.

Lemma rstrip_by_app p s t :
  Py.all_chars p t = true -> Py.rstrip_by p (String.append s t) = Py.rstrip_by p s.
Proof.
  intros Ht. induction s as [|c s IH]; simpl; [by apply rstrip_by_all|]. by rewrite IH.
Qed.

Lemma lstrip_by_clean p s : starts_clean p (Py.lstrip_by p s).
Proof. induction s as [|c s IH]; simpl; [done|]. by destruct (p c) eqn:Hc. Qed.

Lemma starts_clean_lstrip p s : starts_clean p s -> Py.lstrip_by p s = s.
Proof. destruct s as [|c s]; simpl; [done|]. by intros ->. Qed.

Lemma rstrip_by_clean p s : starts_clean p s -> starts_clean p (Py.rstrip_by p s).
Proof. destruct s as [|c s]; simpl; [done|]. intros Hc. by rewrite Hc. Qed.

Lemma rstrip_by_idemp p s : Py.rstrip_by p (Py.rstrip_by p s) = Py.rstrip_by p s.
Proof.
  induction s as [|c s IH]; simpl; [done|].
  destruct (p c && negb (Py.truthy (Py.rstrip_by p s))) eqn:Hc; simpl; [done|].
  by rewrite IH, Hc.
Qed.

Lemma strip_idemp s : Py.strip (Py.strip s) = Py.strip s.
Proof.
  unfold Py.strip.
  rewrite (starts_clean_lstrip Py.char_isspace (Py.rstrip_by _ _));
    [apply rstrip_by_idemp | apply rstrip_by_clean, lstrip_by_clean].
Qed.

(** Padding a string with white space does not change what [strip]
    returns. *)
Lemma strip_padded pre s post :
  Py.all_chars Py.char_isspace pre = true ->
  Py.all_chars Py.char_isspace post = true ->
  Py.strip (String.append pre (String.append s post)) = Py.strip s.
Proof.
  intros Hpre Hpost. unfold Py.strip.
  rewrite lstrip_by_app, (lstrip_by_all _ pre Hpre), lstrip_by_app.
  destruct (Py.lstrip_by Py.char_isspace s) as [|c r] eqn:Hs.
  - by rewrite (lstrip_by_all _ post Hpost).
  - by apply rstrip_by_app.
Qed.



Lemma length_msg_if c m : (length (msg_if c m) <= 1)%nat.
Proof. destruct c; simpl; lia. Qed.

Lemma length_errors l : length (errors l) = length l.
Proof. apply length_map. Qed.

Lemma early_messages_length f : (length (early_messages f) <= 3)%nat.
Proof.
  unfold early_messages. rewrite !length_app.
  pose proof (length_msg_if (negb (Py.truthy (name f))) "Full Name is required").
  pose proof (length_msg_if (negb (Py.truthy (country f))) "Country of Origin is required").
  pose proof (length_msg_if (negb (Py.truthy (age f))) age_required_message).
  lia.
Qed.

(** At most nine messages are due: the two age messages exclude each
    other. *)
Lemma error_messages_length form files : (length (error_messages form files) <= 9)%nat.
Proof.
  unfold error_messages, field_messages, early_messages, late_messages, file_messages.
  rewrite !length_app.
  assert (Hage : (length (msg_if (negb (Py.truthy (age (collect form)))) age_required_message) +
                  length (msg_if (age_rejected (age (collect form))) age_positive_message)
                  <= 1)%nat).
  { unfold age_rejected. destruct (Py.truthy (age (collect form))); simpl; [|lia].
    match goal with |- context [msg_if ?c ?m] => pose proof (length_msg_if c m) end. lia. }
  assert (Hfile : (length (match uploaded_file files with
                           | Some fs => msg_if (negb (allowed_file (filename fs)))
                                          file_type_message
                           | None => []
                           end) <= 1)%nat).
  { destruct (uploaded_file files); [apply length_msg_if | simpl; lia]. }
  repeat match goal with
         | |- context [length (msg_if ?c ?m)] =>
             lazymatch goal with
             | _ : (length (msg_if c m) <= 1)%nat |- _ => fail
             | _ => pose proof (length_msg_if c m)
             end
         end.
  lia.
Qed.

Ltac among :=
  unfold name_message, country_message, gender_message, dob_message, phone_message,
    medical_message;
  split_messages;
  destruct (uploaded_file _);
  rewrite ?elem_of_msg_if, ?elem_of_nil; simpl; intuition discriminate.

Lemma name_among form files :
  name_message ∈ error_messages form files <-> Py.truthy (name (collect form)) = false.
Proof. rewrite <- negb_true_iff. among. Qed.

Lemma country_among form files :
  country_message ∈ error_messages form files <-> Py.truthy (country (collect form)) = false.
Proof. rewrite <- negb_true_iff. among. Qed.

Lemma gender_among form files :
  gender_message ∈ error_messages form files <-> Py.truthy (gender (collect form)) = false.
Proof. rewrite <- negb_true_iff. among. Qed.

Lemma dob_among form files :
  dob_message ∈ error_messages form files <-> Py.truthy (dob (collect form)) = false.
Proof. rewrite <- negb_true_iff. among. Qed.

Lemma phone_among form files :
  phone_message ∈ error_messages form files <->
  Py.truthy (phone (collect form)) && negb (Py.isdigit (phone (collect form))) = true.
Proof. among. Qed.

Lemma medical_among form files :
  medical_message ∈ error_messages form files <->
  String.eqb (medical_concerns (collect form)) "Yes" &&
    negb (Py.truthy (medical_details (collect form))) = true.
Proof. among. Qed.

Lemma id_among form files :
  id_number_message (id_type (collect form)) ∈ error_messages form files <->
  Py.truthy (id_type (collect form)) && negb (Py.truthy (id_value (collect form))) = true.
Proof. among. Qed.

Lemma collect_insert_trimmed form k v v' :
  k ∈ trimmed_keys -> Py.strip v = Py.strip v' ->
  collect (<[k := v]> form) = collect (<[k := v']> form).
Proof.
  intros Hk Hv. unfold trimmed_keys, trimmed_text_fields in Hk.
  repeat (apply elem_of_cons in Hk as [->|Hk]); try (by apply elem_of_nil in Hk);
    unfold collect, form_get;
    rewrite ?lookup_insert_eq; rewrite ?lookup_insert_ne by done;
    cbn beta iota; by rewrite Hv.
Qed.

Lemma form_get_other form k v k' :
  k <> k' -> form_get (<[k := v]> form) k' EmptyString = form_get form k' EmptyString.
Proof. intros H. unfold form_get. by rewrite lookup_insert_ne. Qed.

Lemma form_get_absent form k k' :
  form_get (delete k form) k' EmptyString =
  form_get (<[k := EmptyString]> form) k' EmptyString.
Proof.
  unfold form_get. destruct (decide (k = k')) as [->|Hne].
  - by rewrite lookup_delete_eq, lookup_insert_eq.
  - by rewrite lookup_delete_ne, lookup_insert_ne.
Qed.

Lemma collect_unknown_key form k v :
  k ∉ form_keys -> collect (<[k := v]> form) = collect form.
Proof.
  intros Hk. unfold collect.
  rewrite !form_get_other; [done|..];
    intros ->; apply Hk; apply list_elem_of_In; vm_compute; tauto.
Qed.

Lemma collect_absent form k :
  collect (delete k form) = collect (<[k := EmptyString]> form).
Proof. unfold collect. by rewrite !form_get_absent. Qed.

Section Extras.

Variable secure_filename : string -> string.

(** X1: [allowed_file] looks only at what follows the last dot, lower-cased:
  a name [stem.ext] whose [ext] has no dot is allowed exactly when [ext]
  lower-cased is png, jpg, jpeg or pdf, whatever the stem (empty, dotted
  or a path). *)
Theorem X1_allowed_file_last_extension stem ext :
Py.contains "." ext = false ->
allowed_file (String.append stem (String "." ext)) = true <->
Py.lower ext = "png" \/ Py.lower ext = "jpg" \/ Py.lower ext = "jpeg" \/
Py.lower ext = "pdf".
Proof.
intros Hext. rewrite <- allowed_extensions. unfold allowed_file, Py.rsplit1.
rewrite (rsplit_last_app "." stem ext Hext), contains_app. simpl.
rewrite orb_true_r. simpl. apply bool_decide_eq_true.
Qed.

(** X2: a submission is successful exactly when it meets every rule (name,
  country, gender and date of birth given; the trimmed age of digit
  characters that [int] reads as a positive integer; the phone empty or
  digits; the id value given with an id type; the medical details given
  with [Yes]; any uploaded file of an allowed type) and the store file
  is absent or holds a list; the flashed messages and the upload folder
  play no part. *)
Theorem X2_success_criterion form files w :
successful w (submit_form secure_filename form files w) <->
acceptable form files /\ is_Some (stored_records w).
Proof. apply success_criterion. Qed.

(** X3: a submission that meets every rule on a store file that cannot be
  decoded or holds no list raises: the error of the decoder
  ([UnicodeDecodeError], [JSONDecodeError], [ValueError] or
  [RecursionError], as the file is broken) or [AttributeError] for a
  value that is no list; the store file is left as it was and nothing is
  flashed, but the uploaded file has been saved all the same. *)
Theorem X3_unusable_store form files w :
acceptable form files -> stored_records w = None ->
let r := submit_form secure_filename form files w in
r.1 = Raise (match registrations_json w with
             | Corrupt how => decode_error how
             | _ => AttributeError
             end) /\
registrations_json r.2 = registrations_json w /\
new_flashes w r.2 = [] /\
(forall fs, uploaded_file files = Some fs ->
   upload_files r.2 !! path_join UPLOAD_FOLDER (secure_filename (filename fs)) =
     Some (stream fs)).
Proof.
intros [Hno Hnil]%acceptable_iff Hst r. subst r.
pose proof (proj1 (file_ok files)) as Hfiles.
pose proof Hnil as Hnil0.
unfold error_messages in Hnil0. apply app_nil in Hnil0 as [_ Hfile].
specialize (Hfiles Hfile).
destruct (submit_form_outcome secure_filename form files w)
  as [Hraise|_ Hmsg|_ Hnil' _|l' _ _ Hst']; try congruence.
simpl. repeat split.
- unfold store_error, stored_records in *.
  by destruct (registrations_json w) as [|how|[]].
- apply store_upload_store.
- rewrite <- (add_flashes_nil w) at 2. apply new_flashes_store_upload.
- intros fs Hfs. unfold store_upload. rewrite Hfs, (Hfiles fs Hfs). simpl.
  apply lookup_insert_eq.
Qed.


(** X5: a missing store file is no error but the empty sequence: the
  listing then hands the template the empty list and creates no file; a
  submission that meets every rule goes through and creates the file
  with its record as the only one; any other submission leaves the file
  absent. *)
Theorem X5_missing_store_file form files w :
registrations_json w = NoFile ->
let r := submit_form secure_filename form files w in
(view_registrations w).1 = Ok (render_template "view.html" (Some (JList []))) /\
registrations_json (view_registrations w).2 = NoFile /\
(acceptable form files ->
 successful w r /\
 exists n, Py.int (Py.strip (form_get form "age" EmptyString)) = Some n /\
           registrations_json r.2 =
             Json (JList [expected_record secure_filename form files n])) /\
(~ acceptable form files -> registrations_json r.2 = NoFile).
Proof.
intros Hno r. subst r.
assert (Hst : stored_records w = Some []) by (unfold stored_records; by rewrite Hno).
split; [by rewrite (view_registrations_run w [] Hst)|].
split; [by rewrite (view_registrations_run w [] Hst)|].
split.
- intros Hacc.
  assert (Hok : successful w (submit_form secure_filename form files w))
    by (apply success_criterion; split; [done | by rewrite Hst]).
  split; [done|].
  destruct (built_record_expected secure_filename form files w Hok) as (n & Hn & _ & Heq).
  exists n. split; [done|].
  apply successful_stored in Hok as (_ & _ & l & Hl & Hnew).
  assert (l = []) as -> by congruence. by rewrite Hnew, Heq.
- intros Hnot. rewrite <- Hno.
  destruct (handle_store secure_filename (PostSubmit form files) w)
    as [H|(form' & files' & l & [= <- <-] & Hok & _)]; [exact H|].
  destruct Hnot. by apply success_criterion in Hok as [? _].
Qed.

(** X6: the pages other than [/submit] leave the store file and the upload
  folder as they are; the listing hands the decoded store file to the
  template as it is (a value that is no list included), the empty list
  when there is no file, and raises the error of the decoder on a file
  that cannot be decoded, without creating or repairing it. *)
Theorem X6_pages_read_only req w :
is_get req = true ->
registrations_json (handle secure_filename req w).2 = registrations_json w /\
upload_files (handle secure_filename req w).2 = upload_files w /\
(req = GetView ->
 (handle secure_filename req w).1 =
   match registrations_json w with
   | NoFile => Ok (render_template "view.html" (Some (JList [])))
   | Corrupt how => Raise (decode_error how)
   | Json v => Ok (render_template "view.html" (Some v))
   end).
Proof.
intros Hget.
assert (Hsame : (handle secure_filename req w).2 = w).
{ destruct req as [| |form files|]; try done. simpl.
  unfold view_registrations. rewrite bind_run, load_registrations_run.
  by destruct (registrations_json w). }
split; [by rewrite Hsame|]. split; [by rewrite Hsame|].
intros ->. simpl. unfold view_registrations. rewrite bind_run, load_registrations_run.
by destruct (registrations_json w).
Qed.

Lemma store_upload_files files w :
upload_files (store_upload secure_filename files w) =
  match uploaded_file files with
  | Some fs =>
      if allowed_file (filename fs)
      then <[path_join UPLOAD_FOLDER (secure_filename (filename fs)) := stream fs]>
             (upload_files w)
      else upload_files w
  | None => upload_files w
  end.
Proof.
unfold store_upload. destruct (uploaded_file files) as [fs|]; [|done].
by destruct (allowed_file (filename fs)).
Qed.

(** What a call does to the upload folder. *)
Lemma submit_form_uploads form files w :
upload_files (submit_form secure_filename form files w).2 =
  if age_raises (age (collect form)) then upload_files w
  else upload_files (store_upload secure_filename files w).
Proof.
destruct (submit_form_outcome secure_filename form files w)
  as [Hraise|Hraise _|Hraise _ _|l Hraise _ _]; rewrite Hraise; simpl; try done.
by rewrite store_upload_flashes.
Qed.

(** X7: when the age check does not raise, an uploaded file of an allowed
  type is written under the upload folder at its secured name, whatever
  else the submission holds; it replaces a file already there under
  that name, and every other file of the folder is left as it was. *)
Theorem X7_upload_written form files w fs :
age_raises (age (collect form)) = false ->
uploaded_file files = Some fs -> allowed_file (filename fs) = true ->
let r := submit_form secure_filename form files w in
let path := path_join UPLOAD_FOLDER (secure_filename (filename fs)) in
upload_files r.2 !! path = Some (stream fs) /\
(forall p, p <> path -> upload_files r.2 !! p = upload_files w !! p) /\
(forall c s, secure_filename (filename fs) = String c s -> c <> "/"%char ->
   path = String.append "uploads/" (String c s)).
Proof.
intros Hno Hfs Hext r path. subst r path.
rewrite submit_form_uploads, Hno, store_upload_files, Hfs, Hext.
split; [apply lookup_insert_eq|]. split.
- intros p Hp. by rewrite lookup_insert_ne.
- intros c s -> Hc. unfold path_join, UPLOAD_FOLDER.
  each_char c; try reflexivity. by destruct Hc.
Qed.

(** X8: the upload folder is left exactly as it was when no file is
  attached, when the attached file has no allowed type, and when the age
  check raises. *)
Theorem X8_upload_folder_untouched form files w :
(uploaded_file files = None \/
 (exists fs, uploaded_file files = Some fs /\ allowed_file (filename fs) = false) \/
 age_raises (age (collect form)) = true) ->
upload_files (submit_form secure_filename form files w).2 = upload_files w.
Proof.
intros H. rewrite submit_form_uploads, store_upload_files.
destruct (age_raises (age (collect form))); [done|].
destruct H as [->|[(fs & -> & ->)|?]]; done.
Qed.

Lemma submit_form_session form files w :
session_flashes (submit_form secure_filename form files w).2 =
session_flashes w ++ new_flashes w (submit_form secure_filename form files w).2.
Proof.
unfold new_flashes.
destruct (submit_form_outcome secure_filename form files w)
  as [_|_ _|_ _ _|l _ _ _]; cbn [fst snd];
  rewrite ?store_upload_session; simpl; rewrite ?store_upload_session;
  by rewrite ?drop_app_length, ?drop_all, ?app_nil_r.
Qed.

(** X9: a submission only adds to the flashed messages of the session,
  and what it adds is either the one success notice or nothing but error
  messages, nine at most; the success notice never comes with an
  error. *)
Theorem X9_flashes_added form files w :
let r := submit_form secure_filename form files w in
let new := new_flashes w r.2 in
session_flashes r.2 = session_flashes w ++ new /\
(new = [success_flash] \/ forall c m, (c, m) ∈ new -> c = "error") /\
(length new <= 9)%nat.
Proof.
intros r new. subst r new. split; [apply submit_form_session|].
destruct (age_raises (age (collect form))) eqn:Hraise.
- destruct (submit_form_outcome secure_filename form files w)
    as [_|? _|? _ _|l ? _ _]; try congruence.
  cbn [fst snd]. rewrite new_flashes_add. split.
  + right. by intros c m [-> _]%elem_of_errors.
  + rewrite length_errors. pose proof (early_messages_length (collect form)). lia.
- rewrite (submit_form_flashes secure_filename form files w Hraise).
  pose proof (error_messages_length form files) as Hlen.
  destruct (error_messages form files) as [|m l] eqn:Hm; simpl.
  + destruct (stored_records w); simpl; split; auto; try lia.
    right. by intros c m []%elem_of_nil.
  + rewrite app_nil_r. split.
    * right. intros c m' Hin.
      change (("error", m) :: errors l) with (errors (m :: l)) in Hin.
      by apply elem_of_errors in Hin as [-> _].
    * rewrite length_errors. simpl in Hlen. lia.
Qed.

(** X11: when the age check does not raise, each of the five required
  messages is flashed exactly when its field is missing or empty; name,
  country and age are looked at after trimming, gender and date of birth
  as they were sent, so that a gender of white space counts as given. *)
Theorem X11_required_messages form files w :
age_raises (age (collect form)) = false ->
let new := new_flashes w (submit_form secure_filename form files w).2 in
(("error", name_message) ∈ new <->
   Py.strip (form_get form "name" EmptyString) = EmptyString) /\
(("error", country_message) ∈ new <->
   Py.strip (form_get form "country" EmptyString) = EmptyString) /\
(("error", age_required_message) ∈ new <->
   Py.strip (form_get form "age" EmptyString) = EmptyString) /\
(("error", gender_message) ∈ new <-> form_get form "gender" EmptyString = EmptyString) /\
(("error", dob_message) ∈ new <-> form_get form "dob" EmptyString = EmptyString).
Proof.
intros Hno new. subst new.
rewrite !(error_flashed secure_filename form files w _ Hno).
rewrite name_among, country_among, age_required_among, gender_among, dob_among,
  !truthy_false.
done.
Qed.

(** X12: when the age check does not raise, the phone message is flashed
  exactly when the trimmed phone is not empty and has a character that
  is no digit; the id message, which names the id type as it was sent,
  exactly when the id type is not empty and the trimmed id value is; the
  medical message exactly when the medical concerns are the very string
  [Yes] and the trimmed details are empty. *)
Theorem X12_conditional_messages form files w :
age_raises (age (collect form)) = false ->
let f := collect form in
let new := new_flashes w (submit_form secure_filename form files w).2 in
(("error", phone_message) ∈ new <->
   phone f <> EmptyString /\ Py.all_chars Py.char_isdigit (phone f) = false) /\
(("error", String.append "Please enter your " (String.append (id_type f) " number")) ∈ new <->
   id_type f <> EmptyString /\ id_value f = EmptyString) /\
(("error", medical_message) ∈ new <->
   medical_concerns f = "Yes" /\ medical_details f = EmptyString).
Proof.
intros Hno f new. subst new.
change (String.append "Please enter your " (String.append (id_type f) " number"))
  with (id_number_message (id_type (collect form))).
rewrite !(error_flashed secure_filename form files w _ Hno).
rewrite phone_among, id_among, medical_among. subst f.
rewrite !andb_true_iff, !negb_true_iff, !truthy_true, !truthy_false, String.eqb_eq.
split; [|done]. unfold Py.isdigit.
destruct (phone (collect form)) as [|c p]; simpl; [|tauto].
split; intros [? ?]; done.
Qed.

(** X13: when the age check does not raise and some rule is violated,
  the call flashes the messages of the violated rules and nothing else,
  each once, in the order of the rules: name, country, age, gender, date
  of birth, phone, id, medical details, file. *)
Theorem X13_messages_in_order form files w :
age_raises (age (collect form)) = false ->
error_messages form files <> [] ->
let f := collect form in
new_flashes w (submit_form secure_filename form files w).2 =
  errors
    (msg_if (negb (Py.truthy (name f))) name_message ++
     msg_if (negb (Py.truthy (country f))) country_message ++
     msg_if (negb (Py.truthy (age f))) age_required_message ++
     msg_if (age_rejected (age f)) age_positive_message ++
     msg_if (negb (Py.truthy (gender f))) gender_message ++
     msg_if (negb (Py.truthy (dob f))) dob_message ++
     msg_if (Py.truthy (phone f) && negb (Py.isdigit (phone f))) phone_message ++
     msg_if (Py.truthy (id_type f) && negb (Py.truthy (id_value f)))
       (id_number_message (id_type f)) ++
     msg_if (String.eqb (medical_concerns f) "Yes" && negb (Py.truthy (medical_details f)))
       medical_message ++
     match uploaded_file files with
     | Some fs => msg_if (negb (allowed_file (filename fs))) file_type_message
     | None => []
     end).
Proof.
intros Hno Hne f. subst f.
rewrite (proj2 (violations_all_flashed secure_filename form files w Hno Hne)).
unfold error_messages, field_messages, early_messages, late_messages, file_messages.
by rewrite <- !app_assoc.
Qed.

(** X10: white space around the value of a trimmed field (name, country,
  age, phone, id value, emergency name and phone, traveling family,
  medical details, current residence) makes no difference: the padded
  submission behaves as the bare one, in what it returns, flashes, saves
  and stores. *)
Theorem X10_padding_ignored form files k pre s post :
k ∈ trimmed_keys ->
Py.all_chars Py.char_isspace pre = true ->
Py.all_chars Py.char_isspace post = true ->
submit_form secure_filename (<[k := String.append pre (String.append s post)]> form) files =
submit_form secure_filename (<[k := s]> form) files.
Proof.
intros Hk Hpre Hpost. unfold submit_form.
by rewrite (collect_insert_trimmed form k _ s Hk (strip_padded pre s post Hpre Hpost)).
Qed.

(** X14: when the age check does not raise, an uploaded file whose
  extension, lower-cased, is none of png, jpg, jpeg and pdf (a name
  without a dot has none) has the submission turned down with the
  file-type message; the file is not written and the store file is left
  as it was. *)
Theorem X14_disallowed_upload_rejected form files w fs :
age_raises (age (collect form)) = false ->
uploaded_file files = Some fs ->
(forall ext, extension (filename fs) = Some ext -> Py.lower ext ∉ ALLOWED_EXTENSIONS) ->
let r := submit_form secure_filename form files w in
rejected w r /\
("error", file_type_message) ∈ new_flashes w r.2 /\
upload_files r.2 = upload_files w /\
registrations_json r.2 = registrations_json w.
Proof.
intros Hno Hfs Hext r. subst r.
assert (Hbad : allowed_file (filename fs) = false).
{ destruct (allowed_file (filename fs)) eqn:Ha; [|done].
  apply allowed_file_extension in Ha as (ext & He & Hin). by destruct (Hext ext He). }
destruct (disallowed_file_rejected secure_filename form files w fs Hfs Hbad) as [Hup Hrej].
destruct (Hrej Hno) as [Hr Hflash]. repeat split; try done; try apply Hr.
assert (Hm : file_type_message ∈ error_messages form files)
  by (apply file_type_among; by exists fs).
destruct (submit_form_outcome secure_filename form files w)
  as [?|_ _|_ Hnil _|l _ Hnil _]; cbn [fst snd].
- reflexivity.
- by rewrite store_upload_store.
- rewrite Hnil in Hm. by apply elem_of_nil in Hm.
- rewrite Hnil in Hm. by apply elem_of_nil in Hm.
Qed.

(** X15: over any sequence of requests the persisted sequence only grows
  at its end: the records it started with stay a prefix of it, and it
  gains at most one record per request. *)
Theorem X15_store_grows reqs w l :
stored_records w = Some l ->
exists l', stored_records (handle_all secure_filename reqs w) = Some l' /\
           l `prefix_of` l' /\
           (length l' <= length l + length reqs)%nat.
Proof.
revert w l. induction reqs as [|req reqs IH]; intros w l Hst; simpl.
- exists l. split; [done|]. split; [done | lia].
- destruct (handle_store secure_filename req w)
    as [H|(form & files & l0 & _ & _ & Hst0 & Hnew)].
  + destruct (IH (handle secure_filename req w).2 l) as (l' & ? & ? & ?);
      [by unfold stored_records in *; rewrite H|].
    exists l'. split; [done|]. split; [done | lia].
  + assert (l0 = l) as -> by congruence.
    destruct (IH (handle secure_filename req w).2
                (l ++ [built_record secure_filename form files]))
      as (l' & ? & Hpre & Hlen); [by unfold stored_records; rewrite Hnew|].
    exists l'. split; [done|]. split.
    * etrans; [by apply prefix_app_r|]. exact Hpre.
    * rewrite length_app in Hlen. simpl in Hlen. lia.
Qed.

Lemma view_depends_on_store w w' :
registrations_json w' = registrations_json w ->
(view_registrations w').1 = (view_registrations w).1.
Proof.
intros H. unfold view_registrations. rewrite !bind_run, !load_registrations_run, H.
by destruct (registrations_json w).
Qed.

(** X16: a request that is not a successful submission is invisible to
  the listing: the listing after it shows what the listing before it
  showed (or fails as it did), whether the request was a page, a
  submission turned down or one that raised. *)
Theorem X16_listing_unchanged req w :
(forall form files, req = PostSubmit form files ->
                    ~ successful w (handle secure_filename req w)) ->
(view_registrations (handle secure_filename req w).2).1 = (view_registrations w).1.
Proof.
intros Hnot. apply view_depends_on_store.
destruct (handle_store secure_filename req w)
  as [H|(form & files & l0 & Hreq & Hok & _)]; [done|].
by destruct (Hnot form files Hreq).
Qed.

(** X17: the text a successful submission persists under a trimmed key
  (name, country, phone, id value, emergency name and phone, traveling
  family, medical details, current residence) is the trimmed form value:
  it has no white space at either end, so that trimming it again
  changes nothing. *)
Theorem X17_persisted_text_trimmed form files w :
successful w (submit_form secure_filename form files w) ->
exists l v,
  registrations_json (submit_form secure_filename form files w).2 =
    Json (JList (l ++ [v])) /\
  forall k, k ∈ trimmed_text_fields ->
    str_field k v = Some (Py.strip (form_get form k EmptyString)) /\
    Py.strip (Py.strip (form_get form k EmptyString)) =
      Py.strip (form_get form k EmptyString) /\
    starts_clean Py.char_isspace (Py.strip (form_get form k EmptyString)).
Proof.
intros (_ & _ & l & _ & Hnew)%successful_stored.
exists l, (built_record secure_filename form files). split; [done|].
intros k Hk. split; [|split].
- unfold trimmed_text_fields in Hk.
  repeat (apply elem_of_cons in Hk as [->|Hk]); try (by apply elem_of_nil in Hk);
    reflexivity.
- apply strip_idemp.
- apply rstrip_by_clean, lstrip_by_clean.
Qed.

(** X18: in the record of a successful submission the phone is empty or
  made of digits only, and a file name, when there is one, is the
  secured name of the uploaded file, whose type is allowed and whose
  content is in the upload folder under that name when the call
  returns. *)
Theorem X18_phone_and_file_reference form files w :
successful w (submit_form secure_filename form files w) ->
exists l v,
  registrations_json (submit_form secure_filename form files w).2 =
    Json (JList (l ++ [v])) /\
  (exists p, str_field "phone" v = Some p /\ (p = EmptyString \/ Py.isdigit p = true)) /\
  (forall n, obj_get "image_filename" v = Some (JStr n) ->
     exists fs, uploaded_file files = Some fs /\
                allowed_file (filename fs) = true /\
                n = secure_filename (filename fs) /\
                upload_files (submit_form secure_filename form files w).2
                  !! path_join UPLOAD_FOLDER n = Some (stream fs)).
Proof.
intros (Hno & Hnil & l & _ & Hnew)%successful_stored.
exists l, (built_record secure_filename form files). split; [done|].
pose proof (proj2 (acceptable_iff form files) (conj Hno Hnil))
  as (_ & _ & _ & _ & _ & Hphone & _).
split; [by eexists|].
intros n Hn.
change (obj_get "image_filename" (built_record secure_filename form files))
  with (Some (match recorded_filename secure_filename files with
              | Some s => JStr s
              | None => JNull
              end)) in Hn.
unfold recorded_filename in Hn.
destruct (uploaded_file files) as [fs|] eqn:Hfs; [|discriminate].
destruct (allowed_file (filename fs)) eqn:Hext; [|discriminate].
injection Hn as <-. exists fs. repeat split; try done.
rewrite submit_form_uploads, Hno, store_upload_files, Hfs, Hext.
apply lookup_insert_eq.
Qed.

(** X19: nothing keeps a submission from being stored twice: sent again
  after it went through, the same submission goes through again and the
  persisted sequence ends with two equal records. *)
Theorem X19_resubmission_duplicates form files w :
successful w (submit_form secure_filename form files w) ->
let w1 := (submit_form secure_filename form files w).2 in
successful w1 (submit_form secure_filename form files w1) /\
exists l, stored_records w = Some l /\
  stored_records (submit_form secure_filename form files w1).2 =
    Some (l ++ [built_record secure_filename form files;
                built_record secure_filename form files]).
Proof.
intros Hok w1. subst w1.
destruct (successful_stored secure_filename form files w Hok)
  as (Hno & Hnil & l & Hst & Hnew).
set (w1 := (submit_form secure_filename form files w).2) in *.
assert (Hst1 : stored_records w1 =
               Some (l ++ [built_record secure_filename form files]))
  by (unfold stored_records; by rewrite Hnew).
destruct (submit_form_outcome secure_filename form files w1)
  as [?|_ ?|_ _ ?|l1 _ _ Hl1]; try congruence.
split; [apply stored_is_successful|].
exists l. split; [done|]. unfold stored_records. cbn [fst snd].
rewrite Hst1 in Hl1. injection Hl1 as <-. simpl. by rewrite <- app_assoc.
Qed.

(** X20: whenever [submit_form] returns, it answers with a redirect to
  the registration form, for a submission it stored as for one it turned
  down; the two differ only in the messages they flash. *)
Theorem X20_always_redirects form files w :
(submit_form secure_filename form files w).1 = Ok (redirect "/register") \/
exists e, (submit_form secure_filename form files w).1 = Raise e.
Proof.
destruct (submit_form_outcome secure_filename form files w)
  as [_|_ _|_ _ _|l _ _ _]; cbn [fst snd]; try (by left); right; by eexists.
Qed.

(** X21: [submit_form] reads the fourteen form keys and the file part
  [image] and nothing else: a form value under any other key and a file
  part under any other name change nothing in what the call does. *)
Theorem X21_unknown_input_ignored form files k v part :
(k ∉ form_keys ->
 submit_form secure_filename (<[k := v]> form) files =
 submit_form secure_filename form files) /\
(k <> "image" ->
 submit_form secure_filename form (<[k := part]> files) =
 submit_form secure_filename form files).
Proof.
split.
- intros Hk. unfold submit_form. by rewrite (collect_unknown_key form k v Hk).
- intros Hk. unfold submit_form. by rewrite lookup_insert_ne.
Qed.

(** X22: a form key that is absent counts as the empty string: leaving a
  field out and sending it empty make the same call, for every key. *)
Theorem X22_absent_is_empty form files k :
submit_form secure_filename (delete k form) files =
submit_form secure_filename (<[k := EmptyString]> form) files.
Proof. unfold submit_form. by rewrite collect_absent. Qed.

(** X23: a file part with an empty file name, as a browser sends when no
  file was chosen, counts as no file part at all, whatever content comes
  with it. *)
Theorem X23_unnamed_part_is_no_file form files content :
submit_form secure_filename form
  (<["image" := {| filename := EmptyString; stream := content |}]> files) =
submit_form secure_filename form (delete "image" files).
Proof.
unfold submit_form. by rewrite lookup_insert_eq, lookup_delete_eq.
Qed.

End Extras.

(** X1, at an upper-case extension behind a dotted path. *)
Lemma X1_witness :
  allowed_file (String.append "../a.b/scan" (String "." "JPEG")) = true <->
  Py.lower "JPEG" = "png" \/ Py.lower "JPEG" = "jpg" \/ Py.lower "JPEG" = "jpeg" \/
  Py.lower "JPEG" = "pdf".
Proof. apply (X1_allowed_file_last_extension "../a.b/scan" "JPEG"). reflexivity. Defined.

(** X3, on a store file that is no JSON, with a photo attached. *)
Lemma X3_witness :
  (submit_form keep_filename amina photo corrupt_world).1 = Raise JSONDecodeError /\
  upload_files (submit_form keep_filename amina photo corrupt_world).2
    !! "uploads/photo.png" = Some "PNG data".
Proof.
  destruct (X3_unusable_store keep_filename amina photo corrupt_world)
    as (Hr & _ & _ & Hup).
  - apply (proj2 (acceptable_iff amina photo)). split; reflexivity.
  - reflexivity.
  - split; [exact Hr|]. apply (Hup {| filename := "photo.png"; stream := "PNG data" |}).
    reflexivity.
Defined.

(** X5, on the first submission ever. *)
Lemma X5_witness :
  registrations_json (submit_form keep_filename amina ∅ empty_world).2 =
  Json (JList [expected_record keep_filename amina ∅ 34]).
Proof.
  destruct (X5_missing_store_file keep_filename amina ∅ empty_world eq_refl)
    as (_ & _ & Hacc & _).
  destruct Hacc as (_ & n & Hn & Hst).
  - apply (proj2 (acceptable_iff amina ∅)). split; reflexivity.
  - assert (n = 34%Z) as -> by (vm_compute in Hn; congruence). exact Hst.
Defined.

(** X6, on the listing of the empty world. *)
Lemma X6_witness :
  registrations_json (handle keep_filename GetView empty_world).2 = NoFile /\
  (handle keep_filename GetView empty_world).1 =
    Ok (render_template "view.html" (Some (JList []))).
Proof.
  destruct (X6_pages_read_only keep_filename GetView empty_world) as (H1 & _ & H3);
    [reflexivity|].
  split; [exact H1 | exact (H3 eq_refl)].
Defined.

(** X7, with the name missing and a photo attached, over an older file of
    the same name. *)
Lemma X7_witness :
  upload_files
    (submit_form keep_filename (delete "name" amina) photo
       (World [] NoFile {[ "uploads/photo.png" := "old" ]})).2
    !! "uploads/photo.png" = Some "PNG data".
Proof.
  refine (proj1 (X7_upload_written keep_filename (delete "name" amina) photo
                   (World [] NoFile {[ "uploads/photo.png" := "old" ]})
                   {| filename := "photo.png"; stream := "PNG data" |} _ _ _));
    reflexivity.
Defined.

(** X8, with a file of a type that is not allowed. *)
Lemma X8_witness :
  upload_files (submit_form keep_filename amina notes_exe empty_world).2 =
  upload_files empty_world.
Proof.
  apply (X8_upload_folder_untouched keep_filename amina notes_exe empty_world).
  right. left. exists {| filename := "notes.exe"; stream := "MZ" |}.
  split; reflexivity.
Defined.

(** X11, on a gender of one space and a name of spaces. *)
Lemma X11_witness :
  ("error", name_message) ∈
    new_flashes empty_world
      (submit_form keep_filename (<["gender" := " "]> (<["name" := "  "]> amina)) ∅
         empty_world).2 /\
  ~ ("error", gender_message) ∈
    new_flashes empty_world
      (submit_form keep_filename (<["gender" := " "]> (<["name" := "  "]> amina)) ∅
         empty_world).2.
Proof.
  destruct (X11_required_messages keep_filename
              (<["gender" := " "]> (<["name" := "  "]> amina)) ∅ empty_world)
    as (Hname & _ & _ & Hgender & _); [reflexivity|].
  split.
  - apply Hname. reflexivity.
  - intros H. apply Hgender in H. discriminate.
Defined.

(** X12, on a phone with a dash. *)
Lemma X12_witness :
  ("error", phone_message) ∈
    new_flashes empty_world
      (submit_form keep_filename (<["phone" := "079-123"]> amina) ∅ empty_world).2.
Proof.
  destruct (X12_conditional_messages keep_filename (<["phone" := "079-123"]> amina) ∅
              empty_world) as (Hphone & _); [reflexivity|].
  apply Hphone. split; [discriminate | reflexivity].
Defined.

(** X13, with the name and the date of birth missing and a wrong file. *)
Lemma X13_witness :
  new_flashes empty_world
    (submit_form keep_filename (delete "name" (delete "dob" amina)) notes_exe empty_world).2 =
  [("error", name_message); ("error", dob_message); ("error", file_type_message)].
Proof.
  rewrite (X13_messages_in_order keep_filename (delete "name" (delete "dob" amina))
             notes_exe empty_world); [reflexivity | reflexivity | discriminate].
Defined.

(** X10, on a name padded with a blank and a tab. *)
Lemma X10_witness :
  submit_form keep_filename
    (<["name" := String.append " " (String.append "Amina" (String "009" EmptyString))]> amina) ∅ =
  submit_form keep_filename (<["name" := "Amina"]> amina) ∅.
Proof.
  apply (X10_padding_ignored keep_filename amina ∅ "name" " " "Amina"
           (String "009" EmptyString)); [| reflexivity | reflexivity].
  apply list_elem_of_In. vm_compute. right. by left.
Defined.

(** X14, on a file without an allowed extension. *)
Lemma X14_witness :
  rejected empty_world (submit_form keep_filename amina notes_exe empty_world) /\
  upload_files (submit_form keep_filename amina notes_exe empty_world).2 = ∅.
Proof.
  destruct (X14_disallowed_upload_rejected keep_filename amina notes_exe empty_world
              {| filename := "notes.exe"; stream := "MZ" |}) as (Hr & _ & Hup & _).
  - reflexivity.
  - reflexivity.
  - intros ext [= <-]. vm_compute. intros H. inversion H.
  - split; [exact Hr | exact Hup].
Defined.

(** X15, over a successful submission, a failed one and a listing. *)
Lemma X15_witness :
  exists l',
    stored_records
      (handle_all keep_filename
         [PostSubmit amina ∅; PostSubmit (delete "dob" amina) ∅; GetView] empty_world) =
      Some l' /\
    [] `prefix_of` l' /\ (length l' <= 0 + 3)%nat.
Proof.
  apply (X15_store_grows keep_filename
           [PostSubmit amina ∅; PostSubmit (delete "dob" amina) ∅; GetView] empty_world []).
  reflexivity.
Defined.

(** X16, on a submission turned down for its age. *)
Lemma X16_witness :
  (view_registrations
     (handle keep_filename (PostSubmit (<["age" := "-5"]> amina) ∅) empty_world).2).1 =
  (view_registrations empty_world).1.
Proof.
  apply (X16_listing_unchanged keep_filename (PostSubmit (<["age" := "-5"]> amina) ∅)
           empty_world).
  intros form files [= <- <-] [_ H]. apply list_elem_of_In in H. vm_compute in H.
  destruct H as [H|[]]. discriminate.
Defined.

(** X17, on a name sent with blanks around it. *)
Lemma X17_witness :
  exists l v,
    registrations_json
      (submit_form keep_filename (<["name" := "  Amina "]> amina) ∅ empty_world).2 =
      Json (JList (l ++ [v])) /\
    str_field "name" v = Some "Amina".
Proof.
  destruct (X17_persisted_text_trimmed keep_filename (<["name" := "  Amina "]> amina) ∅
              empty_world) as (l & v & Hst & Hk).
  - split; [reflexivity|]. apply list_elem_of_In. vm_compute. by left.
  - exists l, v. split; [exact Hst|].
    refine (proj1 (Hk "name" _)). apply list_elem_of_In. vm_compute. by left.
Defined.

(** X18, on a submission with a photo. *)
Lemma X18_witness :
  exists l v,
    registrations_json (submit_form keep_filename amina photo empty_world).2 =
      Json (JList (l ++ [v])) /\
    (exists p, str_field "phone" v = Some p /\ (p = EmptyString \/ Py.isdigit p = true)).
Proof.
  destruct (X18_phone_and_file_reference keep_filename amina photo empty_world)
    as (l & v & Hst & Hp & _).
  - split; [reflexivity|]. apply list_elem_of_In. vm_compute. by left.
  - exists l, v. split; [exact Hst | exact Hp].
Defined.

(** X19, on Amina's submission sent twice. *)
Lemma X19_witness :
  successful (submit_form keep_filename amina ∅ empty_world).2
    (submit_form keep_filename amina ∅ (submit_form keep_filename amina ∅ empty_world).2).
Proof.
  refine (proj1 (X19_resubmission_duplicates keep_filename amina ∅ empty_world _)).
  split; [reflexivity|]. apply list_elem_of_In. vm_compute. by left.
Defined.
